(** * A shallow embedding of [book_rec.py] (class [BookRecommender])

    The recommender object is a record of its six attributes, the methods
    that print or raise live in a small writer/state/exception monad, and the
    library calls whose results the methods only pass along (scikit-learn's
    cosine similarity over the TF-IDF matrix, NumPy's selection routine, the
    way Polars reads a text cell into an Int64 column) are section
    variables.  A string is a sequence of code points below 256.  A Float64
    is the exact rational it stands for, an infinity or NaN, and every
    operation rounds to the nearest double. *)

From Stdlib Require Import ZArith QArith Qminmax String Ascii List Lia.
From stdpp Require Import base tactics option list sorting gmap strings pretty.

Local Open Scope string_scope.
Local Open Scope Z_scope.

(** ** Python built-ins used by the source *)
Module Py.

(** Exceptions the source can raise or catch.  [SchemaError] is Polars'
    exception for key columns of different types; [PolarsError] stands for
    whatever Polars raises on a cell it cannot read.  Their messages are not
    modelled. *)
Inductive exn : Type :=
| KeyError (key : string)
| ValueError (msg : string)
| IndexError (index : nat)
| SchemaError
| PolarsError.

(** Result of evaluating an expression that may raise. *)
Inductive outcome (A : Type) : Type :=
| Return (a : A)
| Raise (e : exn).
Global Arguments Return {A} a.
Global Arguments Raise {A} e.

Definition code (c : ascii) : Z := Z.of_nat (nat_of_ascii c).

(** The white space [int] strips, among the code points below 256: TAB..CR,
    the blank, NEL and the no-break space.  (FS..US are white space for
    [str.isspace] but not for [int].) *)
Definition is_space (c : ascii) : bool :=
  ((9 <=? code c) && (code c <=? 13)) || (code c =? 32)
  || (code c =? 133) || (code c =? 160).

Definition digit_value (c : ascii) : option Z :=
  if (48 <=? code c) && (code c <=? 57) then Some (code c - 48) else None.

Definition is_underscore (c : ascii) : bool := code c =? 95.

(** Digits after the first one: a single underscore may separate two
    digits, and only white space may follow the last digit. *)
Fixpoint int_digits (acc : Z) (s : list ascii) : option Z :=
  match s with
  | [] => Some acc
  | c :: rest =>
      match digit_value c with
      | Some d => int_digits (10 * acc + d) rest
      | None =>
          if is_underscore c then
            match rest with
            | c' :: rest' =>
                match digit_value c' with
                | Some d => int_digits (10 * acc + d) rest'
                | None => None
                end
            | [] => None
            end
          else if forallb is_space s then Some acc else None
      end
  end.

Definition int_magnitude (s : list ascii) : option Z :=
  match s with
  | c :: rest =>
      match digit_value c with
      | Some d => int_digits d rest
      | None => None
      end
  | [] => None
  end.

Fixpoint lstrip (s : list ascii) : list ascii :=
  match s with
  | c :: rest => if is_space c then lstrip rest else s
  | [] => []
  end.

(** The number of digits of a text, and CPython's default cap on it
    ([sys.int_info.default_max_str_digits]). *)
Definition count_digits (s : list ascii) : Z :=
  Z.of_nat (length (List.filter (λ c, match digit_value c with
                                      | Some _ => true
                                      | None => false
                                      end) s)).

Definition int_max_str_digits : Z := 4300.

(** [int(s)] for a [str] argument in base 10; [None] stands for
    [ValueError].  Surrounding white space, one sign, and single
    underscores between digits are accepted, and a text of more than 4300
    digits is refused, as CPython does. *)
Definition int (s : string) : option Z :=
  if int_max_str_digits <? count_digits (list_ascii_of_string s) then None
  else
    match lstrip (list_ascii_of_string s) with
    | c :: rest =>
        if (code c =? 45) then Z.opp <$> int_magnitude rest
        else if (code c =? 43) then int_magnitude rest
        else int_magnitude (c :: rest)
    | [] => None
    end.

(** [str.lower] on the code points below 256: the letters A..Z and the
    capital letters of 192..222 (not the multiplication sign, 215) move up by
    32. *)
Definition lower_char (c : ascii) : ascii :=
  if ((65 <=? code c) && (code c <=? 90))
     || ((192 <=? code c) && (code c <=? 222) && negb (code c =? 215))
  then ascii_of_nat (nat_of_ascii c + 32) else c.

Definition lower (s : string) : string :=
  string_of_list_ascii (map lower_char (list_ascii_of_string s)).

(** The character classes of the two regular expressions of the source. *)
Definition in_a_z (c : ascii) : bool := (97 <=? code c) && (code c <=? 122).
Definition in_A_Z (c : ascii) : bool := (65 <=? code c) && (code c <=? 90).
Definition in_0_9 (c : ascii) : bool := (48 <=? code c) && (code c <=? 57).
Definition is_blank (c : ascii) : bool := code c =? 32.

(** [re.sub("[^...]", "", s)]: keep the characters of the class. *)
Definition keep (class : ascii -> bool) (s : string) : string :=
  string_of_list_ascii (List.filter class (list_ascii_of_string s)).

(** [l[-k:]] for a positive [k]. *)
Definition last_slice {A} (k : nat) (l : list A) : list A :=
  drop (length l - k) l.

(** [l[:k]], also the [head(k)] of a data frame. *)
Definition head {A} (k : nat) (l : list A) : list A := take k l.

End Py.

(** [outcome] is the exception monad. *)
#[global] Instance outcome_ret : MRet Py.outcome := @Py.Return.
#[global] Instance outcome_bind : MBind Py.outcome := λ A B k m,
  match m with
  | Py.Return a => k a
  | Py.Raise e => Py.Raise e
  end.

#[global] Instance outcome_fmap : FMap Py.outcome := λ A B f m,
  match m with
  | Py.Return a => Py.Return (f a)
  | Py.Raise e => Py.Raise e
  end.

(** [d[key]] on a dict. *)
Definition getitem (d : gmap string string) (key : string) : Py.outcome string :=
  match d !! key with
  | Some v => Py.Return v
  | None => Py.Raise (Py.KeyError key)
  end.

(** ** Float64 *)

(** An IEEE 754 double: a rational of the form m * 2^e, an infinity or NaN.
    [round] is rounding to nearest, ties to even, with gradual underflow and
    overflow to infinity; zero is kept without its sign. *)
Module F64.

Inductive t : Type :=
| Finite (q : Q)
| Infinity (negative : bool)
| NaN.

(** The integer nearest to [n / d], the even one in a tie. *)
Definition nearest (n d : Z) : Z :=
  let q := n / d in
  match 2 * (n mod d) ?= d with
  | Lt => q
  | Gt => q + 1
  | Eq => if Z.even q then q else q + 1
  end.

(** The [k] with 2^k <= n / d < 2^(k+1), for positive [n] and [d]. *)
Definition ilog2 (n d : Z) : Z :=
  let k := Z.log2 n - Z.log2 d in
  if n * 2 ^ Z.max 0 (- k) <? d * 2 ^ Z.max 0 k then k - 1 else k.

(** [n / d] rounded to 53 significant bits, with exponent at least -1074. *)
Definition round_pos (n d : Z) : t :=
  let e := Z.max (ilog2 n d - 52) (-1074) in
  let m := nearest (n * 2 ^ Z.max 0 (- e)) (d * 2 ^ Z.max 0 e) in
  if 2 ^ 1024 <=? m * 2 ^ Z.max 0 e then Infinity false
  else Finite (Qred (Qmake (m * 2 ^ Z.max 0 e) (Z.to_pos (2 ^ Z.max 0 (- e))))).

Definition opp (x : t) : t :=
  match x with
  | Finite q => Finite (Qopp q)
  | Infinity s => Infinity (negb s)
  | NaN => NaN
  end.

Definition round (q : Q) : t :=
  match Qnum q with
  | 0 => Finite 0
  | Zpos n => round_pos (Zpos n) (Zpos (Qden q))
  | Zneg n => opp (round_pos (Zpos n) (Zpos (Qden q)))
  end.

(** The cast of an integer column to Float64. *)
Definition of_int (z : Z) : t := round (inject_Z z).

Definition negative (q : Q) : bool := Qnum q <? 0.

Definition div (x y : t) : t :=
  match x, y with
  | NaN, _ | _, NaN => NaN
  | Infinity _, Infinity _ => NaN
  | Infinity s, Finite b => Infinity (xorb s (negative b))
  | Finite _, Infinity _ => Finite 0
  | Finite a, Finite b =>
      if Qnum b =? 0 then
        if Qnum a =? 0 then NaN else Infinity (negative a)
      else round (a / b)
  end.

Definition mul (x y : t) : t :=
  match x, y with
  | NaN, _ | _, NaN => NaN
  | Infinity s, Infinity s' => Infinity (xorb s s')
  | Infinity s, Finite b | Finite b, Infinity s =>
      if Qnum b =? 0 then NaN else Infinity (xorb s (negative b))
  | Finite a, Finite b => round (a * b)
  end.

(** The order Polars sorts a Float64 column by: the order of the numbers,
    with NaN above everything. *)
Definition leb (x y : t) : bool :=
  match x, y with
  | _, NaN => true
  | NaN, _ => false
  | Infinity true, _ => true
  | _, Infinity false => true
  | Infinity false, _ => false
  | _, Infinity true => false
  | Finite a, Finite b => Qle_bool a b
  end.

End F64.

(** ** Data frames of the recommender *)

(** One line of the books file, as [json.loads] delivers it: the four fields
    [parse_fields] reads.  [ratings_count] is text in the data set. *)
Record RawBook : Type := {
  raw_book_id : string;
  raw_title_without_series : string;
  raw_ratings_count : string;
  raw_url : string
}.

(** A row of [self.titles].  [ratings] is the Int64 column, held as an
    unbounded integer. *)
Record Book : Type := {
  book_id : string;
  title : string;
  ratings : Z;
  url : string;
  norm_titles : string
}.

(** A row of [self.interactions_df]. *)
Record Interaction : Type := {
  user_id : string;
  csv_id : string;
  rating : Z
}.

#[global] Instance Book_eq_dec : EqDecision Book.
Proof. solve_decision. Defined.
#[global] Instance Interaction_eq_dec : EqDecision Interaction.
Proof. solve_decision. Defined.

(** The object: its attributes.  The fitted vectorizer and the TF-IDF matrix
    are functions of [titles] and are folded into the similarity oracle of
    [search] below. *)
Record BookRecommender : Type := {
  titles : list Book;
  interactions_df : list Interaction;
  interactions_to_book_data_map : gmap string string;
  book_data_to_interactions_map : gmap string string;
  liked_books : list string;
  similar_users : gset string
}.

Definition set_liked_books (l : list string) (self : BookRecommender) : BookRecommender :=
  {| titles := titles self;
     interactions_df := interactions_df self;
     interactions_to_book_data_map := interactions_to_book_data_map self;
     book_data_to_interactions_map := book_data_to_interactions_map self;
     liked_books := l;
     similar_users := similar_users self |}.

Definition set_similar_users (u : gset string) (self : BookRecommender) : BookRecommender :=
  {| titles := titles self;
     interactions_df := interactions_df self;
     interactions_to_book_data_map := interactions_to_book_data_map self;
     book_data_to_interactions_map := book_data_to_interactions_map self;
     liked_books := liked_books self;
     similar_users := u |}.

(** ** [__init__] *)

(** Lines 24-36: keep the lines whose [ratings_count] is accepted by [int]
    and exceeds 25. *)
Definition over_25_reviews (line : RawBook) : bool :=
  match Py.int (raw_ratings_count line) with
  | Some ratings => 25 <? ratings
  | None => false
  end.

(** Lines 39-40: the row of a kept line, with the normalised title, when
    Polars reads into the Int64 cell the integer that [int] read from the
    text (see [construct] below for what Polars is asked to read). *)
Definition to_row (line : RawBook) : Book :=
  {| book_id := raw_book_id line;
     title := raw_title_without_series line;
     ratings := default 0 (Py.int (raw_ratings_count line));
     url := raw_url line;
     norm_titles :=
       Py.lower (Py.keep (λ c, Py.in_a_z c || Py.in_A_Z c || Py.in_0_9 c || Py.is_blank c)
                         (raw_title_without_series line)) |}.

Definition load_titles (book_file : list RawBook) : list Book :=
  to_row <$> filter (λ line, over_25_reviews line) book_file.

(** Lines 46-53: both dictionaries, filled line by line; a later line
    overwrites an earlier one with the same key.  A line is the pair
    [(csv_id, book_id)]. *)
Definition load_maps (map_file : list (string * string))
  : gmap string string * gmap string string :=
  foldl (λ maps line,
           (<[line.1 := line.2]> (maps.1), <[line.2 := line.1]> (maps.2)))
        (∅, ∅) map_file.

(** The object that [__init__] leaves when it returns and Polars read the
    counts as [int] did.  Whether it returns is [construct], below. *)
Definition init (book_file : list RawBook) (map_file : list (string * string))
    (interactions : list Interaction) : BookRecommender :=
  {| titles := load_titles book_file;
     interactions_df := interactions;
     interactions_to_book_data_map := (load_maps map_file).1;
     book_data_to_interactions_map := (load_maps map_file).2;
     liked_books := [];
     similar_users := ∅ |}.

(** *** Where [__init__] raises *)

(** Line 57.  The vectorizer is built with its defaults, so a token is two
    or more word characters in a row; a normalised title holds only
    characters of [a-z0-9 ], of which all but the blank are word characters.
    When no title has a token, [fit_transform] raises [ValueError]. *)
Definition is_word (c : ascii) : bool := Py.in_a_z c || Py.in_0_9 c.

Fixpoint has_token (s : list ascii) : bool :=
  match s with
  | c :: rest =>
      match rest with
      | c' :: _ => (is_word c && is_word c') || has_token rest
      | [] => false
      end
  | [] => false
  end.

Definition fit_transform (raw_documents : list string) : Py.outcome unit :=
  if existsb (λ doc, has_token (list_ascii_of_string doc)) raw_documents
  then Py.Return ()
  else Py.Raise (Py.ValueError
                   "empty vocabulary; perhaps the documents only contain stop words").

Section Construct.

(** How [pl.from_dicts] reads a text into a cell of an Int64 column; [None]
    when it raises instead. *)
Variable read_int64 : string → option Z.

(** Lines 39-40, one row: the count handed to Polars is the text of the
    file, not the integer of line 31. *)
Definition from_dict (fields : RawBook) : Py.outcome Book :=
  match read_int64 (raw_ratings_count fields) with
  | Some ratings =>
      Py.Return
        {| book_id := raw_book_id fields;
           title := raw_title_without_series fields;
           ratings := ratings;
           url := raw_url fields;
           norm_titles :=
             Py.lower (Py.keep (λ c, Py.in_a_z c || Py.in_A_Z c || Py.in_0_9 c
                                      || Py.is_blank c)
                               (raw_title_without_series fields)) |}
  | None => Py.Raise Py.PolarsError
  end.

(** Lines 12-65 on the data of the three files. *)
Definition construct (book_file : list RawBook) (map_file : list (string * string))
    (interactions : list Interaction) : Py.outcome BookRecommender :=
  let books_titles := filter (λ line, over_25_reviews line) book_file in
  titles ← mapM from_dict books_titles;
  _ ← fit_transform (norm_titles <$> titles);
  mret {| titles := titles;
          interactions_df := interactions;
          interactions_to_book_data_map := (load_maps map_file).1;
          book_data_to_interactions_map := (load_maps map_file).2;
          liked_books := [];
          similar_users := ∅ |}.

(** Polars and [int] read the same number where both read one. *)
Definition reads_as_int : Prop :=
  ∀ s m n, read_int64 s = Some m → Py.int s = Some n → m = n.

End Construct.

(** A reading that Polars may implement, used in the examples: a text of at
    most one sign and then digits only is read as [int] reads it, when the
    number fits into 64 bits; any other text is refused. *)
Definition parse_int64 (s : string) : option Z :=
  let digits :=
    match list_ascii_of_string s with
    | c :: rest => if (Py.code c =? 45) || (Py.code c =? 43) then rest else c :: rest
    | [] => []
    end in
  match digits with
  | [] => None
  | _ :: _ =>
      if forallb Py.in_0_9 digits then
        match Py.int s with
        | Some n => if (- 2 ^ 63 <=? n) && (n <? 2 ^ 63) then Some n else None
        | None => None
        end
      else None
  end.

(** The two look-ups of the identifier mapper. *)
Definition to_catalog_id (self : BookRecommender) (csv : string) : Py.outcome string :=
  getitem (interactions_to_book_data_map self) csv.

Definition to_interaction_id (self : BookRecommender) (book : string) : Py.outcome string :=
  getitem (book_data_to_interactions_map self) book.

(** ** [search] *)

(** What NumPy documents of a partition around position [kth]: the result
    permutes the positions of [a], nothing before [kth] is larger than the
    element there, and nothing after it is smaller.  The order inside the two
    blocks is left open. *)
Definition partitioned (a : list Q) (kth : nat) (idx : list nat) : Prop :=
  idx ≡ₚ seq 0 (length a) ∧
  ∀ i j x y, (i ≤ kth)%nat → (kth ≤ j)%nat →
    idx !! i = Some x → idx !! j = Some y → (nth x a 0 <= nth y a 0)%Q.

Definition ratings_ge (a b : Book) : Prop := ratings b ≤ ratings a.

#[global] Instance ratings_ge_dec : RelDecision ratings_ge.
Proof. intros a b. unfold ratings_ge. apply _. Defined.

(** [results.select("book_id", "title", "url")], one row. *)
Definition select (b : Book) : string * string * string :=
  (book_id b, title b, url b).

(** [self.titles[indices]]: the rows at the given positions, in that order. *)
Definition take_rows (rows : list Book) (indices : list nat) : Py.outcome (list Book) :=
  mapM (λ i, match rows !! i with
             | Some r => Py.Return r
             | None => Py.Raise (Py.IndexError i)
             end) indices.

Section Search.

(** [cosine_similarity(vectorizer.transform([q]), tfidf).flatten()] for the
    vectorizer fitted on the given column of normalised titles: one
    similarity per catalogue row. *)
Variable cosine_similarity : list string → string → list Q.

(** NumPy's selection routine behind [argpartition], on a position already
    brought into range. *)
Variable introselect : list Q → nat → list nat.

(** [np.argpartition(a, kth)]: a negative [kth] counts from the end, and a
    position out of range is a [ValueError], except on an empty array, where
    NumPy skips the check and returns an empty array. *)
Definition argpartition (a : list Q) (kth : Z) : Py.outcome (list nat) :=
  let n := Z.of_nat (length a) in
  let k := if kth <? 0 then kth + n else kth in
  if n =? 0 then Py.Return []
  else if (0 <=? k) && (k <? n)
  then Py.Return (introselect a (Z.to_nat k))
  else Py.Raise (Py.ValueError ("kth(=" +:+ pretty k +:+ ") out of bounds ("
                                +:+ pretty n +:+ ")")).

(** Line 73: the positions handed on to the popularity sort. *)
Definition search_indices (similarity : list Q) : Py.outcome (list nat) :=
  Py.last_slice 50 <$> argpartition similarity (-10).

(** Line 69. *)
Definition norm_input (input : string) : string :=
  Py.keep (λ c, Py.in_a_z c || Py.in_0_9 c || Py.is_blank c) (Py.lower input).

Definition similarity (self : BookRecommender) (input : string) : list Q :=
  cosine_similarity (norm_titles <$> titles self) (norm_input input).

(** Lines 68-78.  The sort by [ratings] is a merge sort; Polars leaves the
    order of rows with equal [ratings] open. *)
Definition search (self : BookRecommender) (input : string)
  : Py.outcome (list (string * string * string)) :=
  indices ← search_indices (similarity self input);
  results ← take_rows (titles self) indices;
  let results := merge_sort ratings_ge results in
  let results := select <$> results in
  mret (Py.head 10 results).

End Search.

(** An admissible selection routine: sort the positions by value, then turn
    the block below [kth] around. *)
Definition value_le (a : list Q) (x y : nat) : Prop := (nth x a 0 <= nth y a 0)%Q.

#[global] Instance value_le_dec a : RelDecision (value_le a).
Proof.
  intros x y. unfold value_le.
  destruct (Qlt_le_dec (nth y a 0%Q) (nth x a 0%Q)) as [H|H];
    [right; apply Qlt_not_le, H | left; exact H].
Defined.

Definition select_by_sort (a : list Q) (kth : nat) : list nat :=
  let sorted := merge_sort (value_le a) (seq 0 (length a)) in
  reverse (take kth sorted) ++ drop kth sorted.

(** A similarity oracle that reads the similarities off a table. *)
Definition table_similarity (table : list Q) (corpus : list string) (q : string) : list Q :=
  take (length corpus) (table ++ replicate (length corpus) 0%Q).

(** ** Methods that print, mutate the object or raise *)

(** A method call maps the object to its result, the object afterwards and
    the lines it printed.  After a [Raise] the object is as the exception
    found it. *)
Definition M (A : Type) : Type :=
  BookRecommender → Py.outcome A * BookRecommender * list string.

#[global] Instance M_ret : MRet M := λ A a self, (Py.Return a, self, []).

#[global] Instance M_bind : MBind M := λ A B k m self,
  match m self with
  | (Py.Return a, self1, out1) =>
      let '(r, self2, out2) := k a self1 in (r, self2, (out1 ++ out2)%list)
  | (Py.Raise e, self1, out1) => (Py.Raise e, self1, out1)
  end.

Definition get_self : M BookRecommender := λ self, (Py.Return self, self, []).

Definition assign (f : BookRecommender → BookRecommender) : M unit :=
  λ self, (Py.Return (), f self, []).

Definition print (line : string) : M unit := λ self, (Py.Return (), self, [line]).

(** An expression that may raise, evaluated inside a method. *)
Definition eval {A} (e : Py.outcome A) : M A := λ self, (e, self, []).

(** [for x in l: body(x)] *)
Fixpoint for_each {A} (l : list A) (body : A → M unit) : M unit :=
  match l with
  | [] => mret ()
  | x :: rest => _ ← body x; for_each rest body
  end.

(** [acc = []; for x in l: acc.append(f(x))] *)
Fixpoint collect {A B} (l : list A) (f : A → M B) : M (list B) :=
  match l with
  | [] => mret []
  | x :: rest => y ← f x; ys ← collect rest f; mret (y :: ys)
  end.

(** Lines 80-95. *)
Definition add_liked_book (input : string) : M unit :=
  self ← get_self;
  if decide (input ∈ liked_books self) then
    print "Book is already selected"
  else
    match Py.int input with
    | None => print "Error: input is not a book id number"
    | Some tmp =>
        if 0 <? tmp
        then assign (λ self, set_liked_books ((liked_books self ++ [input])%list) self)
        else mret ()
    end.

(** [list.remove(x)]: drop the first occurrence. *)
Fixpoint list_remove (x : string) (l : list string) : list string :=
  match l with
  | [] => []
  | y :: rest => if decide (x = y) then rest else y :: list_remove x rest
  end.

(** Lines 97-102. *)
Definition remove_liked_book (input : string) : M unit :=
  self ← get_self;
  if decide (input ∈ liked_books self)
  then assign (λ self, set_liked_books (list_remove input (liked_books self)) self)
  else print "This value does not exist in the list".

(** Lines 119-131, the body of the loop over the filtered interactions. *)
Definition note_row (row : Interaction) : M unit :=
  self ← get_self;
  if decide (user_id row ∈ similar_users self) then mret ()
  else if 4 <=? rating row
       then assign (λ self, set_similar_users ({[user_id row]} ∪ similar_users self) self)
       else mret ().

(** Lines 104-131. *)
Definition find_similar_users : M unit :=
  self ← get_self;
  if decide (liked_books self = []) then
    print "Error: no books entered"
  else
    liked_books_mapped ←
      collect (liked_books self)
              (λ book, eval (getitem (book_data_to_interactions_map self) book));
    let filtered_interactions_df :=
      filter (λ row, csv_id row ∈ liked_books_mapped) (interactions_df self) in
    for_each filtered_interactions_df note_row.

(** ** [find_recs] *)

(** Line 141.  Python reads [a & b > 0] as [(a & b) > 0]: the Boolean column
    of [is_in] is combined with the Int64 column [rating] by a bit-wise
    conjunction on their common integer type (true is 1), and the result is
    compared with 0. *)
Definition is_in_and_rating (self : BookRecommender) (row : Interaction) : Z :=
  Z.land (Z.b2z (bool_decide (user_id row ∈ similar_users self))) (rating row).

(** Lines 141-142: the interactions that are counted. *)
Definition recs_df (self : BookRecommender) : list Interaction :=
  let recs_df := filter (λ row, 0 < is_in_and_rating self row) (interactions_df self) in
  filter (λ row, 3 ≤ rating row) recs_df.

(** [Series.value_counts()]: each distinct value with its number of
    occurrences.  Polars leaves the order of the rows open. *)
Definition value_counts (col : list string) : list (string * Z) :=
  (λ v, (v, Z.of_nat (length (filter (λ w, w = v) col)))) <$> remove_dups col.

(** Lines 144-147: [book_count] per interaction-space id, above the cut-off. *)
Definition neighbor_counts (self : BookRecommender) : list (string * Z) :=
  filter (λ row, 25 < row.2) (value_counts (csv_id <$> recs_df self)).

(** The number of counted interactions of one interaction-space id. *)
Definition neighbor_count (self : BookRecommender) (csv : string) : Z :=
  Z.of_nat (length (filter (λ row, csv_id row = csv) (recs_df self))).

(** A row of [recs] after the join and the score column. *)
Record Rec : Type := {
  book : Book;
  book_count : Z;
  score : F64.t
}.

(** Line 158: inner join with the catalogue on the catalogue id. *)
Definition join (recs : list (string * Z)) (titles : list Book) : list (Book * Z) :=
  row ← recs;
  (λ b, (b, row.2)) <$> filter (λ b, book_id b = row.1) titles.

(** Line 161: [book_count * (book_count / ratings)] on Float64.  The true
    division casts both integer columns to Float64 and rounds the quotient;
    the product with [book_count], cast again, is rounded once more. *)
Definition with_score (row : Book * Z) : Rec :=
  {| book := row.1;
     book_count := row.2;
     score := F64.mul (F64.of_int row.2)
                      (F64.div (F64.of_int row.2) (F64.of_int (ratings row.1))) |}.

Definition score_ge (a b : Rec) : Prop := F64.leb (score b) (score a) = true.

#[global] Instance score_ge_dec : RelDecision score_ge.
Proof. intros a b. unfold score_ge. apply _. Defined.

(** Lines 141-164: the frame sorted by score, before the liked books are
    taken out.  The look-up of line 152 raises [KeyError].  When no item is
    counted above the cut-off, the list of line 150 stays empty, the Series
    of line 154 has no type, and the join of line 158, whose other key column
    is text, raises [SchemaError]. *)
Definition sorted_recs (self : BookRecommender) : Py.outcome (list Rec) :=
  let recs := neighbor_counts self in
  book_id ← mapM (λ row : string * Z, getitem (interactions_to_book_data_map self) row.1) recs;
  if decide (book_id = []) then Py.Raise Py.SchemaError
  else
    let recs := zip_with (λ b (row : string * Z), (b, row.2)) book_id recs in
    let recs := join recs (titles self) in
    let recs := with_score <$> recs in
    mret (merge_sort score_ge recs).

(** Lines 165-168 on the sorted frame. *)
Definition top_recs (self : BookRecommender) (recs : list Rec) : list (string * string * string) :=
  let filtered_recs :=
    filter (λ r, book_id (book r) ∉ liked_books self) recs in
  Py.head 10 ((select ∘ book) <$> filtered_recs).

(** Lines 134-168. *)
Definition find_recs : M (list (string * string * string)) :=
  self ← get_self;
  if decide (size (similar_users self) = 0%nat) then
    _ ← print "Error: no similar users found"; mret []
  else
    recs ← eval (sorted_recs self);
    mret (top_recs self recs).

(** Lines 170-177. *)
Definition reset_liked_books : M unit := assign (set_liked_books []).

Definition reset_recs : M unit :=
  assign (λ self, set_similar_users ∅ (set_liked_books [] self)).

(** ** Error kinds *)

(** The methods report a failure by printing a line and returning [None].
    The names below are those under which the specification lists these
    reports. *)
Inductive ErrorKind : Type :=
| ValidationError
| RangeError
| DuplicateError
| NotFoundError
| EmptySelectionError
| EmptyNeighborhoodError.

#[global] Instance ErrorKind_eq_dec : EqDecision ErrorKind.
Proof. solve_decision. Defined.

Definition error_kind (line : string) : option ErrorKind :=
  if decide (line = "Error: input is not a book id number") then Some ValidationError
  else if decide (line = "Book is already selected") then Some DuplicateError
  else if decide (line = "This value does not exist in the list") then Some NotFoundError
  else if decide (line = "Error: no books entered") then Some EmptySelectionError
  else if decide (line = "Error: no similar users found") then Some EmptyNeighborhoodError
  else None.

(** The error kinds a call reported. *)
Definition reported {A} (r : Py.outcome A * BookRecommender * list string) : list ErrorKind :=
  omap error_kind r.2.

(** ** Sample data *)

Definition users (n : nat) : list string := (λ i, "u" +:+ pretty i) <$> seq 0 n.

Definition rated (us : list string) (csv : string) (r : Z) : list Interaction :=
  (λ u, {| user_id := u; csv_id := csv; rating := r |}) <$> us.

Definition raw_book (id t count : string) : RawBook :=
  {| raw_book_id := id; raw_title_without_series := t;
     raw_ratings_count := count; raw_url := "https://www.goodreads.com/book/show/" +:+ id |}.

(** The object without any data and with the empty session. *)
Definition fresh : BookRecommender := init [] [] [].

(** Five lines of a books file; the last two are below the threshold or
    without a count. *)
Definition sample_books : list RawBook :=
  [raw_book "B" "Book B" "5000"; raw_book "A" "Book A!" "300";
   raw_book "L" "Liked" "1000"; raw_book "X" "Obscure" "25";
   raw_book "Y" "Uncounted" ""].

(** Three catalogue books; thirty neighbours who rated interaction item 1
    with 3, item 3 with 4 and item 9 with 5, twenty-six of whom rated item 2
    with 5; book L is liked. *)
Definition sample : BookRecommender :=
  set_similar_users (list_to_set (users 30))
    (set_liked_books ["L"]
       (init sample_books
             [("1", "A"); ("2", "B"); ("3", "C"); ("9", "L")]
             (rated (users 26) "2" 5 ++ rated (users 30) "1" 3
                ++ rated (users 30) "3" 4 ++ rated (users 30) "9" 5)%list)).

(** Book "1" is mapped and a user rated it 5; book "2" has no counterpart. *)
Definition half_mapped : BookRecommender :=
  set_liked_books ["1"; "2"]
    (init [] [("10", "1")] [ {| user_id := "u"; csv_id := "10"; rating := 5 |} ]).

(** Two lines of the map file that share an interaction id. *)
Definition shared_csv_id : list (string * string) := [("1", "a"); ("1", "b")].

(** A row of the sample: neighbour "u0" gave interaction item "3" a 4. *)
Definition u0_rates_3 : Interaction := {| user_id := "u0"; csv_id := "3"; rating := 4 |}.

(** A shelf of twelve books with as many reviews as their number times one
    hundred. *)
Definition shelf : BookRecommender :=
  init ((λ i, raw_book (pretty i) ("Harry Potter " +:+ pretty i) (pretty (100 * i)%nat))
          <$> seq 1 12) [] [].

(** Similarities of fifty-one books to some query: 0.5 for book 0, 0.4 for
    book 40, 1 for the last ten and 0 for the others. *)
Definition skewed : list Q :=
  ([0.5%Q] ++ replicate 39 0%Q ++ [0.4%Q] ++ replicate 10 1%Q)%list.

(** Fifty-one books; book "0" has by far the most reviews. *)
Definition shelf51 : BookRecommender :=
  init (raw_book "0" "Most reviewed" "99999"
          :: ((λ i, raw_book (pretty i) ("Book " +:+ pretty i) (pretty (100 + i)%nat))
                <$> seq 1 50))
       [] [].

(** One catalogue book with forty reviews, which twenty-six neighbours
    rated 5. *)
Definition niche : BookRecommender :=
  set_similar_users (list_to_set (users 26))
    (init [raw_book "N" "Niche" "40"] [("4", "N")] (rated (users 26) "4" 5)).

(** Two catalogue books with very many reviews; twenty-eight neighbours
    rated the first with 5 and twenty-seven of them the second. *)
Definition close_call : BookRecommender :=
  set_similar_users (list_to_set (users 28))
    (init [raw_book "P" "Book P" "12953195148151";
           raw_book "Q" "Book Q" "12044488855870"]
          [("1", "P"); ("2", "Q")]
          (rated (users 28) "1" 5 ++ rated (users 27) "2" 5)%list).

(** ** Well-formed lists of liked books *)

(** What [add_liked_book] lets into the list: no text twice, and only texts
    that [int] reads as a positive number. *)
Definition ids_well_formed (l : list string) : Prop :=
  NoDup l ∧ ∀ x, x ∈ l → ∃ n, Py.int x = Some n ∧ 0 < n.

(** The recommender of [half_mapped] with only the mapped book liked. *)
Definition mapped_liked : BookRecommender := set_liked_books ["1"] half_mapped.

(** ** [main] *)

(** What the program writes: the lines of [print], the prompts of [input]
    and the data frames handed to [print]. *)
Inductive event : Type :=
| Printed (line : string)
| Prompted (prompt : string)
| Frame (rows : list (string * string * string)).

(** How a run ends: normally, with an exception nobody catches, with the
    [EOFError] of [input] at the end of the script, or because the bound on
    the number of loop rounds of the model was reached. *)
Inductive ending (A : Type) : Type :=
| Done (a : A)
| Uncaught (e : Py.exn)
| EOFError
| OutOfFuel.
Global Arguments Done {A} a.
Global Arguments Uncaught {A} e.
Global Arguments EOFError {A}.
Global Arguments OutOfFuel {A}.

(** The lines still to be typed, what was written so far, and the object. *)
Record Console : Type := {
  stdin : list string;
  stdout : list event;
  my_book_recommender : BookRecommender
}.

Definition IO (A : Type) : Type := Console → ending A * Console.

#[global] Instance IO_ret : MRet IO := λ A a w, (Done a, w).

#[global] Instance IO_bind : MBind IO := λ A B k m w,
  match m w with
  | (Done a, w1) => k a w1
  | (Uncaught e, w1) => (Uncaught e, w1)
  | (EOFError, w1) => (EOFError, w1)
  | (OutOfFuel, w1) => (OutOfFuel, w1)
  end.

Definition write (e : event) (w : Console) : Console :=
  {| stdin := stdin w; stdout := (stdout w ++ [e])%list;
     my_book_recommender := my_book_recommender w |}.

(** [input(prompt)]: write the prompt and read the next line. *)
Definition input (prompt : string) : IO string := λ w,
  match stdin w with
  | line :: rest =>
      (Done line,
       {| stdin := rest; stdout := (stdout w ++ [Prompted prompt])%list;
          my_book_recommender := my_book_recommender w |})
  | [] => (EOFError, write (Prompted prompt) w)
  end.

Definition print_line (line : string) : IO unit := λ w, (Done (), write (Printed line) w).

Definition print_frame (rows : list (string * string * string)) : IO unit :=
  λ w, (Done (), write (Frame rows) w).

(** A method call on [my_book_recommender]. *)
Definition call {A} (m : M A) : IO A := λ w,
  let '(r, self, out) := m (my_book_recommender w) in
  (match r with Py.Return a => Done a | Py.Raise e => Uncaught e end,
   {| stdin := stdin w; stdout := (stdout w ++ (Printed <$> out))%list;
      my_book_recommender := self |}).

Definition out_of_fuel {A} : IO A := λ w, (OutOfFuel, w).

Section Main.
Variable cosine_similarity : list string → string → list Q.
Variable introselect : list Q → nat → list nat.

(** Lines 190-197, the inner loop of searching and selecting. *)
Fixpoint select_books (fuel : nat) : IO unit :=
  match fuel with
  | O => out_of_fuel
  | S fuel =>
      val ← input "Enter the title of a book you like: ";
      results ← call (self ← get_self; eval (search cosine_similarity introselect self val));
      _ ← print_frame results;
      val ← input "Enter the book id of the book you like or enter 0 to continue without selecting a book: ";
      _ ← call (add_liked_book val);
      val ← input "Would you like to search for another book? Enter 'Y' for yes or 'N' for no: ";
      if decide (Py.lower val = "n") then mret () else select_books fuel
  end.

(** Lines 210-214, the loop that adds recommended books. *)
Fixpoint add_recommended (fuel : nat) : IO unit :=
  match fuel with
  | O => out_of_fuel
  | S fuel =>
      val ← input "Enter a book id from the top recommendations to add it to your list or enter 0 to return to searching: ";
      if decide (val = "0") then mret ()
      else _ ← call (add_liked_book val); add_recommended fuel
  end.

(** Lines 189-214, the outer loop. *)
Fixpoint rounds (fuel : nat) : IO unit :=
  match fuel with
  | O => out_of_fuel
  | S fuel =>
      _ ← select_books (S fuel);
      _ ← print_line "searching for users";
      _ ← call find_similar_users;
      _ ← print_line "searching for recommendations";
      recs ← call find_recs;
      _ ← print_frame recs;
      val ← input "Would you liked to search for more recommendations? Enter 'Y' for yes or 'N' for no: ";
      if decide (Py.lower val = "n") then mret ()
      else
        val ← input "Would you like to clear your list of liked books? Enter 'Y' for yes or 'N' for no: ";
        _ ← (if decide (Py.lower val = "y") then call reset_recs
             else add_recommended (S fuel));
        rounds fuel
  end.

(** Lines 187-214 on the data of the three files and a script of typed
    lines, for a constructor call (line 188) that returned the object [init].
    Reading the command line and the files is not modelled. *)
Definition main (book_file : list RawBook) (map_file : list (string * string))
    (interactions : list Interaction) (script : list string) (fuel : nat)
  : ending unit * Console :=
  rounds fuel {| stdin := script; stdout := [Printed "initializing"];
                 my_book_recommender := init book_file map_file interactions |}.

End Main.

(** ** What a run keeps *)

(** The loaded data of two states of the object are the same. *)
Definition same_data (self self' : BookRecommender) : Prop :=
  titles self' = titles self
  ∧ interactions_df self' = interactions_df self
  ∧ interactions_to_book_data_map self' = interactions_to_book_data_map self
  ∧ book_data_to_interactions_map self' = book_data_to_interactions_map self.

(** A method keeps the loaded data, and keeps the list of liked books well
    formed. *)
Definition keeps_data {A} (m : M A) : Prop :=
  ∀ self, same_data self (m self).1.2
          ∧ (ids_well_formed (liked_books self) → ids_well_formed (liked_books (m self).1.2)).

(** From console [w] to console [w']: the script was read in order, what was
    written stays written, and the object kept its data and a well-formed
    list. *)
Definition kept (w w' : Console) : Prop :=
  stdin w' `suffix_of` stdin w
  ∧ stdout w `prefix_of` stdout w'
  ∧ same_data (my_book_recommender w) (my_book_recommender w')
  ∧ (ids_well_formed (liked_books (my_book_recommender w)) →
     ids_well_formed (liked_books (my_book_recommender w'))).

(** A step of the program from [w]: it keeps the above, it does not stop
    for lack of fuel, and, when [strict], it reads at least one line before
    it ends normally. *)
Definition good {A} (strict : bool) (m : IO A) (w : Console) : Prop :=
  kept w (m w).2
  ∧ (m w).1 ≠ OutOfFuel
  ∧ (strict = true → ∀ a, (m w).1 = Done a →
       (length (stdin (m w).2) < length (stdin w))%nat).

(** The lines of the books file behind [shelf]. *)
Definition shelf_books : list RawBook :=
  (λ i, raw_book (pretty i) ("Harry Potter " +:+ pretty i) (pretty (100 * i)%nat))
    <$> seq 1 12.

(** * Properties *)

(** ** [int] on sample texts *)

Example int_5 : Py.int "5" = Some 5.
Proof. reflexivity. Qed.

Example int_minus_1 : Py.int "-1" = Some (-1).
Proof. reflexivity. Qed.

Example int_07 : Py.int "07" = Some 7.
Proof. reflexivity. Qed.

Example int_padded : Py.int " +1_000 " = Some 1000.
Proof. reflexivity. Qed.

Example int_empty : Py.int "" = None.
Proof. reflexivity. Qed.

Example int_abc : Py.int "abc" = None.
Proof. reflexivity. Qed.

Example int_sign_gap : Py.int "- 7" = None.
Proof. reflexivity. Qed.

Example int_two_underscores : Py.int "1__0" = None.
Proof. reflexivity. Qed.

(** The separators FS..US are white space for [str.isspace] and not for
    [int]; NEL and the no-break space are white space for both. *)
Example int_file_separator : Py.int (String (ascii_of_nat 28) "4") = None.
Proof. reflexivity. Qed.

Example int_no_break_space : Py.int (String (ascii_of_nat 160) "4") = Some 4.
Proof. reflexivity. Qed.

(** A text of more than 4300 digits is refused. *)
Example int_too_many_digits :
  Py.int (string_of_list_ascii (repeat "1"%char 4300)) = Some ((10 ^ 4300 - 1) / 9)
  ∧ Py.int (string_of_list_ascii (repeat "1"%char 4301)) = None.
Proof. split; vm_compute; reflexivity. Qed.

Example int_trailing_underscore : Py.int "10_" = None.
Proof. reflexivity. Qed.

(** ** The liked-books session *)

Section Session.
Implicit Types (self : BookRecommender) (input : string).

Lemma add_liked_book_duplicate self input :
  input ∈ liked_books self →
  add_liked_book input self = (Py.Return (), self, ["Book is already selected"]).
Proof.
  intros Hin. unfold add_liked_book, mbind, M_bind, get_self.
  destruct (decide (input ∈ liked_books self)) as [_|Hn]; [reflexivity | contradiction].
Qed.

Lemma add_liked_book_not_int self input :
  input ∉ liked_books self → Py.int input = None →
  add_liked_book input self
  = (Py.Return (), self, ["Error: input is not a book id number"]).
Proof.
  intros Hnin Hint. unfold add_liked_book, mbind, M_bind, get_self.
  destruct (decide (input ∈ liked_books self)) as [Hin|_]; [contradiction|].
  rewrite Hint. reflexivity.
Qed.

Lemma add_liked_book_not_positive self input tmp :
  input ∉ liked_books self → Py.int input = Some tmp → tmp ≤ 0 →
  add_liked_book input self = (Py.Return (), self, []).
Proof.
  intros Hnin Hint Hle. unfold add_liked_book, mbind, M_bind, get_self.
  destruct (decide (input ∈ liked_books self)) as [Hin|_]; [contradiction|].
  rewrite Hint. destruct (Z.ltb_spec 0 tmp); [lia | reflexivity].
Qed.

Lemma add_liked_book_appends self input tmp :
  input ∉ liked_books self → Py.int input = Some tmp → 0 < tmp →
  add_liked_book input self
  = (Py.Return (), set_liked_books (liked_books self ++ [input])%list self, []).
Proof.
  intros Hnin Hint Hlt. unfold add_liked_book, mbind, M_bind, get_self.
  destruct (decide (input ∈ liked_books self)) as [Hin|_]; [contradiction|].
  rewrite Hint. destruct (Z.ltb_spec 0 tmp); [reflexivity | lia].
Qed.

(** C3, as the code has it.  [add_liked_book] never raises.  An input that
    is already in the list prints "Book is already selected"
    (DuplicateError); otherwise an input that [int] rejects prints "Error:
    input is not a book id number" (ValidationError); otherwise an input whose
    value is at most 0 is dropped without any report; otherwise the input is
    appended at the end of the list.  In the three cases that do not append,
    the object is exactly as before.  So "" and "abc" report a
    ValidationError, "-1" reports nothing, and "5" is accepted into the empty
    session. *)
Theorem add_liked_book_cases self input :
  (input ∈ liked_books self →
     add_liked_book input self = (Py.Return (), self, ["Book is already selected"])
     ∧ reported (add_liked_book input self) = [DuplicateError])
  ∧ (input ∉ liked_books self → Py.int input = None →
     add_liked_book input self
       = (Py.Return (), self, ["Error: input is not a book id number"])
     ∧ reported (add_liked_book input self) = [ValidationError])
  ∧ (∀ tmp, input ∉ liked_books self → Py.int input = Some tmp → tmp ≤ 0 →
     add_liked_book input self = (Py.Return (), self, [])
     ∧ reported (add_liked_book input self) = [])
  ∧ (∀ tmp, input ∉ liked_books self → Py.int input = Some tmp → 0 < tmp →
     add_liked_book input self
       = (Py.Return (), set_liked_books (liked_books self ++ [input])%list self, [])
     ∧ liked_books (add_liked_book input self).1.2 = (liked_books self ++ [input])%list)
  ∧ reported (add_liked_book "" fresh) = [ValidationError]
  ∧ (add_liked_book "" fresh).1.2 = fresh
  ∧ reported (add_liked_book "abc" fresh) = [ValidationError]
  ∧ (add_liked_book "abc" fresh).1.2 = fresh
  ∧ reported (add_liked_book "-1" fresh) = []
  ∧ (add_liked_book "-1" fresh).1.2 = fresh
  ∧ liked_books (add_liked_book "5" fresh).1.2 = ["5"].
Proof.
  split; [|split; [|split; [|split]]].
  - intros H. rewrite (add_liked_book_duplicate _ _ H). done.
  - intros H1 H2. rewrite (add_liked_book_not_int _ _ H1 H2). done.
  - intros tmp H1 H2 H3. rewrite (add_liked_book_not_positive _ _ _ H1 H2 H3). done.
  - intros tmp H1 H2 H3. rewrite (add_liked_book_appends _ _ _ H1 H2 H3). done.
  - repeat split; vm_compute; reflexivity.
Qed.

(** C3 as stated fails: "-1" parses to a value below 1, and the call reports
    no error kind at all. *)
Lemma add_liked_book_minus_1_reports_nothing :
  Py.int "-1" = Some (-1) ∧ ¬ ∃ e : ErrorKind, e ∈ reported (add_liked_book "-1" fresh).
Proof.
  split; [reflexivity|]. intros [e He]. vm_compute in He. inversion He.
Qed.

(** C10.  The membership test of line 82 is on the raw text and comes
    before [int]: an input found in the list is reported as already selected
    whatever [int] would say of it, and two different texts with the same
    positive value are both appended.  After "7" and "07" the list of the
    empty session is ["7"; "07"], two entries for book 7. *)
Theorem add_liked_book_compares_text self :
  (∀ input, input ∈ liked_books self →
     add_liked_book input self = (Py.Return (), self, ["Book is already selected"]))
  ∧ (∀ a b tmp, a ≠ b → a ∉ liked_books self → b ∉ liked_books self →
       Py.int a = Some tmp → Py.int b = Some tmp → 0 < tmp →
       (add_liked_book a ≫= λ _, add_liked_book b) self
       = (Py.Return (), set_liked_books (liked_books self ++ [a; b])%list self, []))
  ∧ Py.int "7" = Some 7 ∧ Py.int "07" = Some 7
  ∧ (add_liked_book "7" ≫= λ _, add_liked_book "07") fresh
    = (Py.Return (), set_liked_books ["7"; "07"] fresh, []).
Proof.
  split; [|split].
  - intros input H. by apply add_liked_book_duplicate.
  - intros a b tmp Hab Ha Hb Hia Hib Hpos.
    unfold mbind at 1. unfold M_bind.
    rewrite (add_liked_book_appends _ _ _ Ha Hia Hpos).
    rewrite (add_liked_book_appends _ b tmp); [| |exact Hib|exact Hpos].
    + cbn. unfold set_liked_books; cbn. by rewrite <- app_assoc.
    + cbn. rewrite elem_of_app, list_elem_of_singleton. intros [?|?]; [done|]. by apply Hab.
  - repeat split; vm_compute; reflexivity.
Qed.

End Session.

(** ** [find_similar_users] *)

Section Neighbours.
Implicit Types (self : BookRecommender) (d : gmap string string).

Lemma bind_return {A B} (m : M A) (k : A → M B) self a self1 out1 :
  m self = (Py.Return a, self1, out1) →
  (m ≫= k) self = (let '(r, self2, out2) := k a self1 in (r, self2, (out1 ++ out2)%list)).
Proof. intros H. unfold mbind, M_bind. by rewrite H. Qed.

Lemma bind_raise {A B} (m : M A) (k : A → M B) self e self1 out1 :
  m self = (Py.Raise e, self1, out1) →
  (m ≫= k) self = (Py.Raise e, self1, out1).
Proof. intros H. unfold mbind, M_bind. by rewrite H. Qed.

Lemma eval_getitem_Some d key v self :
  d !! key = Some v → eval (getitem d key) self = (Py.Return v, self, []).
Proof. intros H. unfold eval, getitem. by rewrite H. Qed.

(** The translation loop of lines 112-114 touches nothing, and stops at the
    first liked book without a counterpart. *)
Lemma collect_getitem_missing d (l : list string) self :
  (∃ book, book ∈ l ∧ d !! book = None) →
  ∃ missing, collect l (λ book, eval (getitem d book)) self
             = (Py.Raise (Py.KeyError missing), self, [])
             ∧ missing ∈ l ∧ d !! missing = None.
Proof.
  induction l as [|x rest IH]; intros (book & Hin & Hnone).
  - inversion Hin.
  - destruct (d !! x) as [v|] eqn:Hx.
    + assert (Hrest : book ∈ rest).
      { apply elem_of_cons in Hin as [->|?]; [congruence | done]. }
      destruct IH as (missing & Hrun & Hm & Hd); [by exists book|].
      exists missing. split; [|split; [by right | done]].
      cbn [collect].
      rewrite (bind_return _ _ _ _ _ _ (eval_getitem_Some d x v self Hx)).
      rewrite (bind_raise _ _ _ _ _ _ Hrun). reflexivity.
    + exists x. split; [|split; [by left | done]].
      cbn [collect]. apply bind_raise. unfold eval, getitem. by rewrite Hx.
Qed.

Lemma collect_getitem_found d (l : list string) self :
  (∀ book, book ∈ l → is_Some (d !! book)) →
  ∃ mapped, collect l (λ book, eval (getitem d book)) self = (Py.Return mapped, self, [])
            ∧ Forall2 (λ book csv, d !! book = Some csv) l mapped.
Proof.
  induction l as [|x rest IH]; intros Hall.
  - exists []. split; [reflexivity | constructor].
  - destruct (Hall x) as [v Hx]; [by left|].
    destruct IH as (mapped & Hrun & Hf); [intros; apply Hall; by right|].
    exists (v :: mapped). split; [|by constructor].
    cbn [collect].
    rewrite (bind_return _ _ _ _ _ _ (eval_getitem_Some d x v self Hx)).
    rewrite (bind_return _ _ _ _ _ _ Hrun). reflexivity.
Qed.

(** C8.  With no liked book, [find_similar_users] prints "Error: no books
    entered" (EmptySelectionError) and returns; the whole object, so the list
    of liked books and the set of similar users, is as before, and an empty
    set of similar users stays empty. *)
Theorem find_similar_users_nothing_liked self :
  liked_books self = [] →
  find_similar_users self = (Py.Return (), self, ["Error: no books entered"])
  ∧ reported (find_similar_users self) = [EmptySelectionError]
  ∧ liked_books (find_similar_users self).1.2 = liked_books self
  ∧ similar_users (find_similar_users self).1.2 = similar_users self
  ∧ (similar_users self = ∅ → similar_users (find_similar_users self).1.2 = ∅).
Proof.
  intros Hnil.
  assert (Hrun : find_similar_users self
                 = (Py.Return (), self, ["Error: no books entered"])).
  { unfold find_similar_users, mbind, M_bind, get_self.
    destruct (decide (liked_books self = [])) as [_|Hne]; [reflexivity | contradiction]. }
  rewrite Hrun. cbn. split_and!; done.
Qed.

Lemma find_similar_users_nothing_liked_witness :
  liked_books fresh = []
  ∧ similar_users (find_similar_users fresh).1.2 = ∅.
Proof.
  split; [reflexivity|].
  apply (find_similar_users_nothing_liked fresh); reflexivity.
Defined.

(** C9.  All liked books are translated (lines 112-114) before the loop that
    inserts users starts: when some liked book has no entry in
    [book_data_to_interactions_map], the call raises [KeyError] for the first
    such book, prints nothing and leaves the object, so the set of similar
    users, exactly as it was. *)
Theorem find_similar_users_missing_mapping self book :
  book ∈ liked_books self →
  book_data_to_interactions_map self !! book = None →
  ∃ missing,
    find_similar_users self = (Py.Raise (Py.KeyError missing), self, [])
    ∧ missing ∈ liked_books self
    ∧ book_data_to_interactions_map self !! missing = None
    ∧ similar_users (find_similar_users self).1.2 = similar_users self.
Proof.
  intros Hin Hnone.
  destruct (collect_getitem_missing (book_data_to_interactions_map self)
              (liked_books self) self) as (missing & Hrun & Hm & Hd); [by exists book|].
  exists missing.
  assert (Hcall : find_similar_users self = (Py.Raise (Py.KeyError missing), self, [])).
  { unfold find_similar_users. unfold mbind at 1. unfold M_bind, get_self at 1.
    destruct (decide (liked_books self = [])) as [Hnil|_].
    - rewrite Hnil in Hin. inversion Hin.
    - rewrite (bind_raise _ _ _ _ _ _ Hrun). reflexivity. }
  rewrite Hcall. done.
Qed.

End Neighbours.

Lemma find_similar_users_missing_mapping_witness :
  "2" ∈ liked_books half_mapped
  ∧ book_data_to_interactions_map half_mapped !! "2" = None
  ∧ ∃ missing,
      find_similar_users half_mapped = (Py.Raise (Py.KeyError missing), half_mapped, [])
      ∧ missing ∈ liked_books half_mapped
      ∧ book_data_to_interactions_map half_mapped !! missing = None
      ∧ similar_users (find_similar_users half_mapped).1.2 = similar_users half_mapped.
Proof.
  assert (H1 : "2" ∈ liked_books half_mapped) by (vm_compute; right; left).
  assert (H2 : book_data_to_interactions_map half_mapped !! "2" = None)
    by (vm_compute; reflexivity).
  split; [exact H1|]. split; [exact H2|].
  exact (find_similar_users_missing_mapping half_mapped "2" H1 H2).
Defined.

(** With only the mapped book liked, the same call runs through and user "u",
    who rated it 5, becomes a similar user. *)
Example find_similar_users_inserts :
  find_similar_users (set_liked_books ["1"] half_mapped)
  = (Py.Return (), set_similar_users {["u"]} (set_liked_books ["1"] half_mapped), []).
Proof. vm_compute. reflexivity. Qed.

(** ** The identifier maps *)

Section Maps.
Implicit Types (map_file : list (string * string)) (csv book : string).

Lemma load_maps_snoc map_file line :
  load_maps (map_file ++ [line])
  = (<[line.1 := line.2]> (load_maps map_file).1,
     <[line.2 := line.1]> (load_maps map_file).2).
Proof. unfold load_maps. by rewrite foldl_snoc. Qed.

(** Whatever a dictionary answers was read from some line. *)
Lemma load_maps_sound map_file :
  (∀ csv book, (load_maps map_file).1 !! csv = Some book → (csv, book) ∈ map_file)
  ∧ (∀ csv book, (load_maps map_file).2 !! book = Some csv → (csv, book) ∈ map_file).
Proof.
  induction map_file as [|[c b] l [IH1 IH2]] using rev_ind.
  - split; intros csv book H; cbn in H; by rewrite lookup_empty in H.
  - rewrite load_maps_snoc. cbn [fst snd]. split; intros csv book H.
    + destruct (decide (c = csv)) as [->|Hne].
      * rewrite lookup_insert_eq in H. injection H as ->.
        apply elem_of_app. right. by left.
      * rewrite lookup_insert_ne in H by done.
        apply elem_of_app. left. by apply IH1.
    + destruct (decide (b = book)) as [->|Hne].
      * rewrite lookup_insert_eq in H. injection H as ->.
        apply elem_of_app. right. by left.
      * rewrite lookup_insert_ne in H by done.
        apply elem_of_app. left. by apply IH2.
Qed.

(** Every id of a line is a key of the dictionary of its side. *)
Lemma load_maps_complete map_file csv book :
  (csv, book) ∈ map_file →
  is_Some ((load_maps map_file).1 !! csv) ∧ is_Some ((load_maps map_file).2 !! book).
Proof.
  induction map_file as [|[c b] l IH] using rev_ind; intros Hin.
  - inversion Hin.
  - rewrite load_maps_snoc. cbn [fst snd].
    apply elem_of_app in Hin as [Hin|Hin].
    + destruct (IH Hin) as [H1 H2]. split.
      * destruct (decide (c = csv)) as [->|Hne];
          [rewrite lookup_insert_eq; eauto | by rewrite lookup_insert_ne].
      * destruct (decide (b = book)) as [->|Hne];
          [rewrite lookup_insert_eq; eauto | by rewrite lookup_insert_ne].
    + apply list_elem_of_singleton in Hin. injection Hin as -> ->.
      rewrite !lookup_insert_eq. eauto.
Qed.

(** C5, as the code has it.  When no interaction id stands on two lines of
    the map file with different catalogue ids, every line [(csv, book)] of the
    file round-trips: [book] is a key of [book_data_to_interactions_map], and
    looking the answer up in [interactions_to_book_data_map] gives [book]
    back. *)
Theorem identifier_round_trip book_file map_file interactions :
  (∀ csv b1 b2, (csv, b1) ∈ map_file → (csv, b2) ∈ map_file → b1 = b2) →
  ∀ csv book, (csv, book) ∈ map_file →
    to_interaction_id (init book_file map_file interactions) book
      ≫= to_catalog_id (init book_file map_file interactions)
    = Py.Return book.
Proof.
  intros Hfun csv book Hin.
  destruct (load_maps_sound map_file) as [S1 S2].
  destruct (load_maps_complete map_file csv book Hin) as [_ [csv' Hb]].
  pose proof (S2 _ _ Hb) as Hin'.
  destruct (load_maps_complete map_file csv' book Hin') as [[book' Hc] _].
  pose proof (S1 _ _ Hc) as Hin''.
  assert (book' = book) as -> by (eapply Hfun; eauto).
  unfold to_interaction_id, to_catalog_id, getitem, init; cbn.
  rewrite Hb. cbn. by rewrite Hc.
Qed.

Lemma identifier_round_trip_witness :
  (∀ csv b1 b2 : string,
      (csv, b1) ∈ [("10", "1"); ("20", "2")] → (csv, b2) ∈ [("10", "1"); ("20", "2")] →
      b1 = b2)
  ∧ ("20", "2") ∈ [("10", "1"); ("20", "2")]
  ∧ to_interaction_id (init [] [("10", "1"); ("20", "2")] []) "2"
      ≫= to_catalog_id (init [] [("10", "1"); ("20", "2")] [])
    = Py.Return "2".
Proof.
  assert (Hfun : ∀ csv b1 b2 : string,
             (csv, b1) ∈ [("10", "1"); ("20", "2")] →
             (csv, b2) ∈ [("10", "1"); ("20", "2")] → b1 = b2).
  { intros csv b1 b2 H1 H2. set_unfold. destruct_or!; simplify_eq; done. }
  assert (Hin : ("20", "2") ∈ [("10", "1"); ("20", "2")]) by (right; left).
  split; [exact Hfun|]. split; [exact Hin|].
  exact (identifier_round_trip [] [("10", "1"); ("20", "2")] [] Hfun "20" "2" Hin).
Defined.

(** C5 as stated fails: both lines of [shared_csv_id] are ingested, and the
    round trip of "a" ends at "b". *)
Lemma identifier_round_trip_fails_on_shared_csv_id :
  ("1", "a") ∈ shared_csv_id
  ∧ to_interaction_id (init [] shared_csv_id []) "a"
      ≫= to_catalog_id (init [] shared_csv_id [])
    = Py.Return "b"
  ∧ to_interaction_id (init [] shared_csv_id []) "a"
      ≫= to_catalog_id (init [] shared_csv_id [])
    ≠ Py.Return "a".
Proof.
  split; [left|]. split; [vm_compute; reflexivity|].
  vm_compute. intros H. discriminate H.
Qed.

End Maps.

Lemma outcome_bind_Return {A B} (m : Py.outcome A) (k : A → Py.outcome B) (r : B) :
  m ≫= k = Py.Return r → ∃ a, m = Py.Return a ∧ k a = Py.Return r.
Proof. destruct m as [a|e]; [eauto | discriminate]. Qed.

Lemma Return_inj {A} (a b : A) : Py.Return a = Py.Return b → a = b.
Proof. by intros [= ->]. Qed.

(** ** Sorted lists *)

Section Sorted.
Context {A : Type} (R : relation A).

Lemma StronglySorted_lookup_lt (l : list A) i j x y :
  StronglySorted R l → l !! i = Some x → l !! j = Some y → (i < j)%nat → R x y.
Proof.
  intros Hs. revert i j. induction Hs as [|z l Hs IH Hall]; intros i j Hi Hj Hlt.
  - by rewrite lookup_nil in Hi.
  - destruct j as [|j]; [lia|]. destruct i as [|i]; cbn in Hi, Hj.
    + injection Hi as ->. rewrite Forall_forall in Hall.
      apply Hall, list_elem_of_lookup. by exists j.
    + apply (IH i j); [done | done | lia].
Qed.

Lemma StronglySorted_sublist (k l : list A) :
  k `sublist_of` l → StronglySorted R l → StronglySorted R k.
Proof.
  induction 1 as [|x k l Hsub IH|x k l Hsub IH]; intros Hs.
  - constructor.
  - apply StronglySorted_inv in Hs as [Hs Hall]. constructor; [by apply IH|].
    rewrite Forall_forall in Hall |- *. intros y Hy. apply Hall.
    by eapply elem_of_sublist.
  - apply StronglySorted_inv in Hs as [Hs _]. by apply IH.
Qed.

End Sorted.

(** ** [find_recs] *)

Section Recommend.
Implicit Types (self : BookRecommender) (row : Interaction) (r : Rec).

Lemma land_1_odd (n : Z) : Z.land 1 n = if Z.odd n then 1 else 0.
Proof.
  rewrite Z.land_comm. change 1 with (Z.ones 1) at 1.
  rewrite Z.land_ones by lia. change (2 ^ 1) with 2. apply Zmod_odd.
Qed.

(** Line 141 keeps the rows of similar users whose rating is odd. *)
Lemma is_in_and_rating_pos self row :
  0 < is_in_and_rating self row
  ↔ user_id row ∈ similar_users self ∧ Z.odd (rating row) = true.
Proof.
  unfold is_in_and_rating. destruct (bool_decide_reflect (user_id row ∈ similar_users self)) as [Hin|Hnin]; cbn [Z.b2z].
  - rewrite land_1_odd. destruct (Z.odd (rating row)); split; [tauto | lia | lia | intros [_ [=]]].
  - rewrite Z.land_0_l. split; [lia | tauto].
Qed.

Lemma recs_df_spec self row :
  row ∈ recs_df self
  ↔ row ∈ interactions_df self ∧ user_id row ∈ similar_users self
    ∧ Z.odd (rating row) = true ∧ 3 ≤ rating row.
Proof.
  unfold recs_df. rewrite !list_elem_of_filter, is_in_and_rating_pos. tauto.
Qed.

(** C1 on the code.  A row is counted when its user is a similar user, its
    rating is at least 3 and its rating is odd.  Row [u0_rates_3] of the
    sample is a row of a similar user with rating 4, it is not counted, and
    interaction item "3", rated 4 by thirty neighbours, has count 0 and is
    missing from [neighbor_counts]. *)
Theorem neighbour_rating_4_is_not_counted :
  (∀ self row,
     row ∈ recs_df self
     ↔ (row ∈ interactions_df self ∧ user_id row ∈ similar_users self
        ∧ 3 ≤ rating row ∧ Z.odd (rating row) = true))
  ∧ u0_rates_3 ∈ interactions_df sample
  ∧ user_id u0_rates_3 ∈ similar_users sample
  ∧ rating u0_rates_3 = 4
  ∧ (u0_rates_3 ∉ recs_df sample)
  ∧ length (filter (λ row, csv_id row = "3" ∧ user_id row ∈ similar_users sample
                            ∧ 3 ≤ rating row) (interactions_df sample)) = 30%nat
  ∧ neighbor_count sample "3" = 0
  ∧ neighbor_counts sample = [("2", 26); ("1", 30); ("9", 30)].
Proof.
  split; [intros; rewrite recs_df_spec; tauto|].
  split; [apply (bool_decide_unpack _); vm_compute; reflexivity|].
  split; [apply (bool_decide_unpack _); vm_compute; reflexivity|].
  split; [reflexivity|].
  split; [rewrite recs_df_spec; intros (_ & _ & Hodd & _); discriminate Hodd|].
  split; [vm_compute; reflexivity|].
  split; vm_compute; reflexivity.
Qed.

Lemma leb_trans (x y z : F64.t) :
  F64.leb x y = true → F64.leb y z = true → F64.leb x z = true.
Proof.
  destruct x as [a|[]|], y as [b|[]|], z as [c|[]|]; cbn; try done.
  rewrite !Qle_bool_iff. apply Qle_trans.
Qed.

Lemma leb_total (x y : F64.t) : F64.leb x y = true ∨ F64.leb y x = true.
Proof.
  destruct x as [a|[]|], y as [b|[]|]; cbn; auto.
  rewrite !Qle_bool_iff.
  destruct (Qlt_le_dec b a) as [H|H]; [right; by apply Qlt_le_weak | by left].
Qed.

#[local] Instance score_ge_trans : Transitive score_ge.
Proof. intros a b c Hab Hbc. unfold score_ge in *. by eapply leb_trans. Qed.

#[local] Instance score_ge_total : Total score_ge.
Proof. intros a b. unfold score_ge. destruct (leb_total (score a) (score b)); auto. Qed.

Lemma mapM_Return {A B} (f : A → Py.outcome B) (l : list A) (k : list B) :
  mapM f l = Py.Return k → Forall2 (λ x y, f x = Py.Return y) l k.
Proof.
  revert k. induction l as [|x l IH]; intros k Hrun.
  - injection Hrun as <-. constructor.
  - cbn in Hrun. destruct (f x) as [y|e] eqn:Hx; [|discriminate Hrun].
    cbn in Hrun. destruct (mapM f l) as [k'|e]; [|discriminate Hrun].
    cbn in Hrun. injection Hrun as <-. constructor; [done | by apply IH].
Qed.

Lemma elem_of_zip_with_Forall2 {A B C} (P : A → B → Prop) (g : B → A → C)
    (l : list A) (k : list B) (z : C) :
  Forall2 P l k → z ∈ zip_with g k l → ∃ x y, P x y ∧ x ∈ l ∧ z = g y x.
Proof.
  induction 1 as [|x y l k Hxy Hall IH]; cbn; intros Hz.
  - inversion Hz.
  - apply elem_of_cons in Hz as [->|Hz].
    + exists x, y. split; [done|]. split; [by left | done].
    + destruct (IH Hz) as (x' & y' & HP & Hin & ->).
      exists x', y'. split; [done|]. split; [by right | done].
Qed.

Lemma zip_with_Forall2_elem_of {A B C} (P : A → B → Prop) (g : B → A → C)
    (l : list A) (k : list B) (x : A) :
  Forall2 P l k → x ∈ l → ∃ y, P x y ∧ g y x ∈ zip_with g k l.
Proof.
  induction 1 as [|x' y l k Hxy Hall IH]; cbn; intros Hx.
  - inversion Hx.
  - apply elem_of_cons in Hx as [->|Hx].
    + exists y. split; [done | by left].
    + destruct (IH Hx) as (y' & HP & Hin). exists y'. split; [done | by right].
Qed.

Lemma length_filter_fmap {A} (f : A → string) (v : string) (l : list A) :
  length (filter (λ w, w = v) (f <$> l)) = length (filter (λ x, f x = v) l).
Proof.
  induction l as [|x l IH]; [done|]. cbn [fmap list_fmap].
  rewrite !filter_cons. destruct (decide (f x = v)); cbn; by rewrite IH.
Qed.

Lemma filter_eq_nil_length (col : list string) (v : string) :
  (0 < length (filter (λ w, w = v) col))%nat → v ∈ col.
Proof.
  induction col as [|w col IH]; [cbn; lia|].
  rewrite filter_cons. destruct (decide (w = v)) as [->|Hne]; [left|].
  intros Hlen. right. by apply IH.
Qed.

(** [value_counts] pairs every value of the column with the number of its
    occurrences. *)
Lemma value_counts_spec (col : list string) (v : string) (c : Z) :
  (v, c) ∈ value_counts col
  ↔ v ∈ col ∧ c = Z.of_nat (length (filter (λ w, w = v) col)).
Proof.
  unfold value_counts. rewrite list_elem_of_fmap. split.
  - intros (w & Heq & Hw). rewrite elem_of_remove_dups in Hw.
    injection Heq as -> ->. split; [exact Hw | reflexivity].
  - intros [Hv ->]. exists v. split; [reflexivity|]. by rewrite elem_of_remove_dups.
Qed.

Lemma neighbor_counts_spec self csv c :
  (csv, c) ∈ neighbor_counts self ↔ c = neighbor_count self csv ∧ 25 < c.
Proof.
  unfold neighbor_counts, neighbor_count.
  rewrite list_elem_of_filter, value_counts_spec, length_filter_fmap. cbn. split.
  - intros (Hc & _ & ->). done.
  - intros [-> Hc]. split; [done|]. split; [|done].
    apply filter_eq_nil_length. rewrite length_filter_fmap. lia.
Qed.

Lemma elem_of_join (recs : list (string * Z)) (titles : list Book) (b : Book) (c : Z) :
  (b, c) ∈ join recs titles ↔ (book_id b, c) ∈ recs ∧ b ∈ titles.
Proof.
  unfold join. rewrite list_elem_of_bind. split.
  - intros ([id c'] & Hin & Hrow).
    apply list_elem_of_fmap in Hin as (b' & [= -> ->] & Hb).
    apply list_elem_of_filter in Hb as [Hid Hb]. cbn in Hid. by rewrite Hid.
  - intros [Hrow Hb]. exists (book_id b, c). split; [|done].
    apply list_elem_of_fmap. exists b. split; [done|].
    apply list_elem_of_filter. done.
Qed.

Lemma sorted_recs_Return self recs :
  sorted_recs self = Py.Return recs →
  ∃ ids, mapM (λ row : string * Z, getitem (interactions_to_book_data_map self) row.1)
              (neighbor_counts self) = Py.Return ids
         ∧ ids ≠ []
         ∧ recs = merge_sort score_ge
                    (with_score <$> join (zip_with (λ b (row : string * Z), (b, row.2))
                                                   ids (neighbor_counts self))
                                         (titles self)).
Proof.
  unfold sorted_recs. intros Hrun.
  apply outcome_bind_Return in Hrun as (ids & Hids & Hrun).
  exists ids. split; [exact Hids|].
  destruct (decide (ids = [])) as [|Hne]; [discriminate Hrun|].
  split; [exact Hne|]. by apply Return_inj in Hrun.
Qed.

(** The rows of the sorted frame: one for every catalogue book whose id is,
    through the identifier map, that of an interaction item counted above the
    cut-off, with that count and scored by [with_score]. *)
Lemma sorted_recs_rows self recs r :
  sorted_recs self = Py.Return recs →
  r ∈ recs
  ↔ ∃ b csv, r = with_score (b, neighbor_count self csv) ∧ b ∈ titles self
             ∧ 25 < neighbor_count self csv
             ∧ to_catalog_id self csv = Py.Return (book_id b).
Proof.
  intros (ids & Hids%mapM_Return & _ & ->)%sorted_recs_Return.
  rewrite merge_sort_Permutation, list_elem_of_fmap. split.
  - intros ([b c] & -> & [Hrow Hb]%elem_of_join).
    destruct (elem_of_zip_with_Forall2 _ _ _ _ _ Hids Hrow)
      as ([csv cnt] & id & Hget & Hcnt & [= Hid ->]).
    apply neighbor_counts_spec in Hcnt as [-> Hover].
    exists b, csv. cbn in *. by rewrite Hid.
  - intros (b & csv & -> & Hb & Hover & Hid).
    exists (b, neighbor_count self csv). split; [done|].
    apply elem_of_join. split; [|done].
    assert (Hcnt : (csv, neighbor_count self csv) ∈ neighbor_counts self)
      by by apply neighbor_counts_spec.
    destruct (zip_with_Forall2_elem_of _ (λ b (row : string * Z), (b, row.2))
                _ _ _ Hids Hcnt) as (id & Hget & Hin).
    cbn in Hget, Hin. unfold to_catalog_id in Hid. rewrite Hid in Hget.
    apply Return_inj in Hget. by subst id.
Qed.

Lemma sorted_recs_sorted self recs :
  sorted_recs self = Py.Return recs → StronglySorted score_ge recs.
Proof.
  intros (ids & _ & _ & ->)%sorted_recs_Return.
  apply StronglySorted_merge_sort; apply _.
Qed.

Lemma find_recs_returns self recs :
  size (similar_users self) ≠ 0%nat → sorted_recs self = Py.Return recs →
  find_recs self = (Py.Return (top_recs self recs), self, []).
Proof.
  intros Hne Hrun. unfold find_recs, mbind, M_bind, get_self.
  destruct (decide (size (similar_users self) = 0%nat)) as [?|_]; [contradiction|].
  unfold eval. rewrite Hrun. reflexivity.
Qed.

(** In a list sorted by descending score, a strictly larger score comes
    first. *)
Lemma larger_score_first (l : list Rec) i j a b :
  StronglySorted score_ge l → l !! i = Some a → l !! j = Some b →
  F64.leb (score a) (score b) = false → (i < j)%nat.
Proof.
  intros Hs Hi Hj Hlt. destruct (decide (i < j)%nat) as [|Hge]; [done|].
  exfalso. destruct (decide (i = j)) as [->|Hne].
  - rewrite Hi in Hj. injection Hj as ->.
    destruct (leb_total (score b) (score b)); congruence.
  - assert (Hba : score_ge b a) by (eapply (StronglySorted_lookup_lt score_ge l j i); eauto; lia).
    unfold score_ge in Hba. congruence.
Qed.

End Recommend.

(** C4, as the code has it.  When [find_recs] gets as far as the sorted frame
    [recs]: the frame has a row exactly for every catalogue book whose id
    is, through the identifier map, that of an interaction item counted above
    25, with that count as [book_count] and with the Float64 score
    [book_count * (book_count / ratings)], the quotient and the product each
    rounded to the nearest double; the frame is in descending order of that
    score; and the call returns, in this order, the first ten rows that are
    not liked books, prints nothing and leaves the object alone.  So among
    the returned rows one with count 30 and popularity 300 has score 3, one
    with count 26 and popularity 5000 has as score the double nearest to
    0.1352, and the former stands before the latter. *)
Theorem find_recs_scores_and_order (self : BookRecommender) (recs : list Rec) :
  size (similar_users self) ≠ 0%nat →
  sorted_recs self = Py.Return recs →
  (∀ r, r ∈ recs
        ↔ ∃ b csv, 25 < neighbor_count self csv
                   ∧ to_catalog_id self csv = Py.Return (book_id b)
                   ∧ b ∈ titles self
                   ∧ r = {| book := b;
                            book_count := neighbor_count self csv;
                            score := F64.mul (F64.of_int (neighbor_count self csv))
                                       (F64.div (F64.of_int (neighbor_count self csv))
                                                (F64.of_int (ratings b))) |})
  ∧ StronglySorted score_ge recs
  ∧ find_recs self
    = (Py.Return ((select ∘ book)
                    <$> take 10 (filter (λ r, book_id (book r) ∉ liked_books self) recs)),
       self, [])
  ∧ ∀ i j a b,
      take 10 (filter (λ r, book_id (book r) ∉ liked_books self) recs) !! i = Some a →
      take 10 (filter (λ r, book_id (book r) ∉ liked_books self) recs) !! j = Some b →
      book_count a = 30 → ratings (book a) = 300 →
      book_count b = 26 → ratings (book b) = 5000 →
      score a = F64.Finite 3 ∧ score b = F64.round 0.1352 ∧ (i < j)%nat.
Proof.
  intros Hne Hrun.
  assert (Hrows : ∀ r, r ∈ recs →
            score r = F64.mul (F64.of_int (book_count r))
                        (F64.div (F64.of_int (book_count r))
                                 (F64.of_int (ratings (book r))))).
  { intros r Hr. apply (sorted_recs_rows _ _ _ Hrun) in Hr as (b & csv & -> & _).
    reflexivity. }
  pose proof (sorted_recs_sorted _ _ Hrun) as Hsorted.
  split.
  { intros r. rewrite (sorted_recs_rows _ _ _ Hrun). unfold with_score. cbn [fst snd].
    split; intros (b & csv & H); exists b, csv; tauto. }
  split; [exact Hsorted|].
  set (kept := take 10 (filter (λ r, book_id (book r) ∉ liked_books self) recs)).
  assert (Hsub : kept `sublist_of` recs).
  { etrans; [apply sublist_take | apply sublist_filter]. }
  assert (Hkept : StronglySorted score_ge kept)
    by (eapply StronglySorted_sublist; eauto).
  split.
  - rewrite (find_recs_returns _ _ Hne Hrun). unfold top_recs, Py.head.
    unfold kept. by rewrite fmap_take.
  - intros i j a b Hi Hj Hca Hra Hcb Hrb.
    assert (Ha : a ∈ recs).
    { eapply elem_of_sublist; [|exact Hsub]. apply list_elem_of_lookup. eauto. }
    assert (Hb : b ∈ recs).
    { eapply elem_of_sublist; [|exact Hsub]. apply list_elem_of_lookup. eauto. }
    pose proof (Hrows a Ha) as Hsa. pose proof (Hrows b Hb) as Hsb.
    rewrite Hca, Hra in Hsa. rewrite Hcb, Hrb in Hsb.
    assert (Ea : score a = F64.Finite 3) by (rewrite Hsa; vm_compute; reflexivity).
    assert (Eb : score b = F64.round 0.1352) by (rewrite Hsb; vm_compute; reflexivity).
    split; [exact Ea|]. split; [exact Eb|].
    apply (larger_score_first kept i j a b Hkept Hi Hj).
    rewrite Ea, Eb. vm_compute. reflexivity.
Qed.

Lemma find_recs_scores_and_order_witness :
  size (similar_users sample) ≠ 0%nat
  ∧ ∃ recs, sorted_recs sample = Py.Return recs
      ∧ find_recs sample
        = (Py.Return ((select ∘ book)
                        <$> take 10 (filter (λ r, book_id (book r) ∉ liked_books sample)
                                            recs)),
           sample, []).
Proof.
  assert (H1 : size (similar_users sample) ≠ 0%nat).
  { intros H. vm_compute in H. discriminate H. }
  split; [exact H1|].
  eexists. split; [vm_compute; reflexivity|].
  exact (proj1 (proj2 (proj2 (find_recs_scores_and_order sample _ H1 eq_refl)))).
Defined.

(** C4, as the specification has it, fails on the code.  In [niche] the one
    recommended book has count 26 and popularity 40; its score is not the
    double nearest to 26 * 26 / 40 = 16.9, which is 4756927106410086 / 2^48,
    but the next double above it, 4756927106410087 / 2^48.  In
    [close_call] book P (count 28) has the larger quotient of squared count
    and popularity, and book Q (count 27) has the larger Float64 score and is
    returned first. *)
Lemma find_recs_score_is_rounded_twice :
  (∃ r, sorted_recs niche = Py.Return [r]
        ∧ book_count r = 26 ∧ ratings (book r) = 40
        ∧ F64.round (inject_Z (26 ^ 2) / inject_Z 40)
          = F64.Finite (2378463553205043 # 140737488355328)
        ∧ score r = F64.Finite (4756927106410087 # 281474976710656)
        ∧ score r ≠ F64.round (inject_Z (26 ^ 2) / inject_Z 40))
  ∧ (∃ p q, sorted_recs close_call = Py.Return [q; p]
        ∧ book_count p = 28 ∧ book_count q = 27
        ∧ (inject_Z (book_count q ^ 2) / inject_Z (ratings (book q))
           < inject_Z (book_count p ^ 2) / inject_Z (ratings (book p)))%Q
        ∧ F64.leb (score q) (score p) = false
        ∧ (find_recs close_call).1.1
          = Py.Return [("Q", "Book Q", "https://www.goodreads.com/book/show/Q");
                       ("P", "Book P", "https://www.goodreads.com/book/show/P")]).
Proof.
  split.
  - eexists. split; [vm_compute; reflexivity|].
    split; [reflexivity|]. split; [reflexivity|].
    split; [vm_compute; reflexivity|]. split; [vm_compute; reflexivity|].
    vm_compute. discriminate.
  - eexists _, _. split; [vm_compute; reflexivity|].
    split; [reflexivity|]. split; [reflexivity|].
    split; [vm_compute; reflexivity|]. split; vm_compute; reflexivity.
Qed.

(** On the sample, book A (count 30, popularity 300) is returned before
    book B (count 26, popularity 5000); the liked book L is left out. *)
Example find_recs_sample :
  (find_recs sample).1.1
  = Py.Return [("A", "Book A!", "https://www.goodreads.com/book/show/A");
               ("B", "Book B", "https://www.goodreads.com/book/show/B")].
Proof. vm_compute. reflexivity. Qed.

(** ** [__init__] *)

Section Construction.
Variable read_int64 : string → option Z.
Implicit Types (line : RawBook) (book_file : list RawBook).

Lemma from_dict_to_row line b :
  reads_as_int read_int64 → over_25_reviews line = true →
  from_dict read_int64 line = Py.Return b → b = to_row line.
Proof.
  intros Hread Hover. unfold from_dict, over_25_reviews, to_row in *.
  destruct (read_int64 (raw_ratings_count line)) as [m|] eqn:Hm; [|discriminate].
  destruct (Py.int (raw_ratings_count line)) as [n|] eqn:Hn; [|discriminate].
  intros [= <-]. by rewrite (Hread _ _ _ Hm Hn).
Qed.

Lemma mapM_from_dict (lines : list RawBook) (rows : list Book) :
  reads_as_int read_int64 → (∀ line, line ∈ lines → over_25_reviews line = true) →
  mapM (from_dict read_int64) lines = Py.Return rows → rows = to_row <$> lines.
Proof.
  intros Hread Hover Hrun. apply mapM_Return in Hrun.
  induction Hrun as [|line b lines rows Hb _ IH]; [done|].
  cbn. f_equal.
  - apply from_dict_to_row; [done | apply Hover; by left | done].
  - apply IH. intros l Hl. apply Hover. by right.
Qed.

(** When [__init__] returns, the catalogue is not empty. *)
Lemma construct_not_empty book_file map_file interactions self :
  construct read_int64 book_file map_file interactions = Py.Return self →
  titles self ≠ [].
Proof.
  intros Hrun. unfold construct in Hrun.
  apply outcome_bind_Return in Hrun as (rows & Hrows & Hrun).
  apply outcome_bind_Return in Hrun as ([] & Hfit & Hrun).
  apply Return_inj in Hrun. subst self. cbn [titles].
  intros ->. discriminate Hfit.
Qed.

(** When [__init__] returns, the object is [init]. *)
Lemma construct_Return book_file map_file interactions self :
  reads_as_int read_int64 →
  construct read_int64 book_file map_file interactions = Py.Return self →
  self = init book_file map_file interactions.
Proof.
  intros Hread Hrun. unfold construct in Hrun.
  apply outcome_bind_Return in Hrun as (rows & Hrows & Hrun).
  apply outcome_bind_Return in Hrun as ([] & Hfit & Hrun).
  apply Return_inj in Hrun. subst self.
  apply mapM_from_dict in Hrows; [by subst rows | done |].
  intros line [Hover _]%list_elem_of_filter. by apply Is_true_true.
Qed.

(** A line that line 31 or line 35 skips leaves no trace: the constructor
    does on the file what it does on the file without that line. *)
Lemma construct_skips (l1 l2 : list RawBook) line map_file interactions :
  over_25_reviews line = false →
  construct read_int64 (l1 ++ line :: l2) map_file interactions
  = construct read_int64 (l1 ++ l2) map_file interactions.
Proof.
  intros Hskip. unfold construct.
  rewrite !filter_app, filter_cons_False; [done|].
  rewrite Hskip. by intros [].
Qed.

Lemma over_25_reviews_false line :
  Py.int (raw_ratings_count line) = None
  ∨ (∃ n, Py.int (raw_ratings_count line) = Some n ∧ n ≤ 25) →
  over_25_reviews line = false.
Proof.
  unfold over_25_reviews. intros [->|(n & -> & Hn)]; [done|]. by apply Z.ltb_ge.
Qed.

End Construction.

Lemma parse_int64_reads_as_int : reads_as_int parse_int64.
Proof.
  intros s m n Hm Hn. unfold parse_int64 in Hm. rewrite Hn in Hm.
  repeat case_match; congruence.
Qed.

(** The sample files are files on which [__init__] returns. *)
Example construct_sample :
  construct parse_int64 sample_books [("1", "A"); ("2", "B"); ("3", "C"); ("9", "L")] []
  = Py.Return (init sample_books [("1", "A"); ("2", "B"); ("3", "C"); ("9", "L")] []).
Proof. vm_compute. reflexivity. Qed.

(** A count that [int] reads and this reading of Polars does not: the line
    passes lines 30-36 and [pl.from_dicts] raises. *)
Example construct_padded_count :
  Py.int " 300 " = Some 300
  ∧ construct parse_int64 (raw_book "S" "Spaced" " 300 " :: sample_books) [] []
    = Py.Raise Py.PolarsError.
Proof. split; vm_compute; reflexivity. Qed.

Example construct_count_2_63 :
  Py.int "9223372036854775808" = Some (2 ^ 63)
  ∧ construct parse_int64 (raw_book "H" "Huge" "9223372036854775808" :: sample_books) [] []
    = Py.Raise Py.PolarsError.
Proof. split; vm_compute; reflexivity. Qed.

(** Without a title that has a token, the vectorizer cannot be fitted. *)
Example construct_empty_catalogue :
  construct parse_int64 [] [] []
  = Py.Raise (Py.ValueError "empty vocabulary; perhaps the documents only contain stop words")
  ∧ construct parse_int64 [raw_book "1" "?!" "100"; raw_book "2" "A B C" "100"] [] []
    = Py.Raise (Py.ValueError "empty vocabulary; perhaps the documents only contain stop words").
Proof. split; vm_compute; reflexivity. Qed.

(** ** [search] *)

Section Selection.
Implicit Types (a : list Q) (idx : list nat).

#[local] Instance value_le_trans a : Transitive (value_le a).
Proof. intros x y z Hxy Hyz. unfold value_le in *. by eapply Qle_trans. Qed.

#[local] Instance value_le_total a : Total (value_le a).
Proof.
  intros x y. unfold value_le.
  destruct (Qlt_le_dec (nth y a 0%Q) (nth x a 0%Q)) as [H|H];
    [right; by apply Qlt_le_weak | by left].
Qed.

(** [select_by_sort] is a partition in NumPy's sense, around any position. *)
Lemma select_by_sort_partitioned a kth : partitioned a kth (select_by_sort a kth).
Proof.
  unfold select_by_sort.
  set (sorted := merge_sort (value_le a) (seq 0 (length a))).
  assert (Hsorted : StronglySorted (value_le a) sorted)
    by (apply StronglySorted_merge_sort; apply _).
  split.
  - rewrite reverse_Permutation, take_drop. apply merge_sort_Permutation.
  - intros i j x y Hi Hj Hx Hy.
    assert (Hlen : length (reverse (take kth sorted)) = (kth `min` length sorted)%nat)
      by (rewrite length_reverse; apply length_take).
    rewrite lookup_app_r in Hy by lia.
    rewrite lookup_drop in Hy.
    assert (Hk : (kth < length sorted)%nat)
      by (apply lookup_lt_Some in Hy; lia).
    replace (kth + (j - length (reverse (take kth sorted))))%nat with j in Hy by lia.
    destruct (decide (i < kth)%nat) as [Hlt|Hge].
    + rewrite lookup_app_l in Hx by lia.
      assert (Hin : x ∈ take kth sorted).
      { apply elem_of_reverse, list_elem_of_lookup. eauto. }
      apply elem_of_take in Hin as (i' & Hi' & Hlt').
      apply (StronglySorted_lookup_lt (value_le a) sorted i' j); [done..|lia].
    + assert (i = kth) as -> by lia.
      rewrite lookup_app_r in Hx by lia.
      rewrite lookup_drop in Hx.
      replace (kth + (kth - length (reverse (take kth sorted))))%nat with kth in Hx by lia.
      destruct (decide (kth = j)) as [->|Hne].
      * rewrite Hx in Hy. injection Hy as ->. unfold value_le. apply Qle_refl.
      * apply (StronglySorted_lookup_lt (value_le a) sorted kth j); [done..|lia].
Qed.

End Selection.

Section SearchProperties.
Variable cosine_similarity : list string → string → list Q.
Variable introselect : list Q → nat → list nat.
Implicit Types (self : BookRecommender) (input : string) (line : RawBook).

(** [np.argpartition(a, -10)] by the length of [a]. *)
Lemma argpartition_empty (kth : Z) : argpartition introselect [] kth = Py.Return [].
Proof. reflexivity. Qed.

Lemma argpartition_too_few (a : list Q) :
  (0 < length a < 10)%nat →
  argpartition introselect a (-10)
  = Py.Raise (Py.ValueError ("kth(=" +:+ pretty (-10 + Z.of_nat (length a))
                             +:+ ") out of bounds (" +:+ pretty (Z.of_nat (length a))
                             +:+ ")")).
Proof.
  intros Hlen. unfold argpartition.
  destruct (Z.ltb_spec (-10) 0) as [_|]; [|lia].
  destruct (Z.eqb_spec (Z.of_nat (length a)) 0) as [|_]; [lia|].
  destruct (Z.leb_spec 0 (-10 + Z.of_nat (length a))) as [|_]; [lia|]. reflexivity.
Qed.

Lemma argpartition_enough (a : list Q) :
  (10 ≤ length a)%nat →
  argpartition introselect a (-10) = Py.Return (introselect a (length a - 10)).
Proof.
  intros Hlen. unfold argpartition.
  destruct (Z.ltb_spec (-10) 0) as [_|]; [|lia].
  destruct (Z.eqb_spec (Z.of_nat (length a)) 0) as [|_]; [lia|].
  destruct (Z.leb_spec 0 (-10 + Z.of_nat (length a))) as [_|]; [|lia].
  destruct (Z.ltb_spec (-10 + Z.of_nat (length a)) (Z.of_nat (length a))) as [_|]; [|lia].
  cbn [andb]. do 2 f_equal. lia.
Qed.

Lemma elem_of_head {A} (x : A) (k : nat) (l : list A) : x ∈ Py.head k l → x ∈ l.
Proof. intros H. eapply elem_of_sublist; [exact H | apply sublist_take]. Qed.

Lemma take_rows_sound (rows : list Book) (indices : list nat) (rs : list Book) :
  take_rows rows indices = Py.Return rs → ∀ b, b ∈ rs → b ∈ rows.
Proof.
  unfold take_rows. revert rs. induction indices as [|i indices IH]; intros rs Hrun b Hb.
  - injection Hrun as <-. inversion Hb.
  - cbn in Hrun. destruct (rows !! i) as [r|] eqn:Hr; [|discriminate Hrun].
    cbn in Hrun. destruct (mapM _ indices) as [rs'|e]; [|discriminate Hrun].
    cbn in Hrun. injection Hrun as <-.
    apply elem_of_cons in Hb as [->|Hb].
    + apply list_elem_of_lookup. eauto.
    + by apply (IH rs').
Qed.

(** Whatever [search] returns are rows of the catalogue. *)
Lemma search_results_from_titles self input res :
  search cosine_similarity introselect self input = Py.Return res →
  ∀ x, x ∈ res → ∃ b, b ∈ titles self ∧ x = select b.
Proof.
  unfold search. intros Hrun x Hx.
  apply outcome_bind_Return in Hrun as (indices & _ & Hrun).
  apply outcome_bind_Return in Hrun as (rows & Hrows & Hrun).
  apply Return_inj in Hrun. subst res.
  apply elem_of_head in Hx.
  apply list_elem_of_fmap in Hx as (b & -> & Hb).
  rewrite merge_sort_Permutation in Hb.
  exists b. split; [|done]. by eapply take_rows_sound.
Qed.

Lemma load_titles_spec (book_file : list RawBook) (b : Book) :
  b ∈ load_titles book_file
  ↔ ∃ line n, line ∈ book_file ∧ Py.int (raw_ratings_count line) = Some n
              ∧ 25 < n ∧ b = to_row line.
Proof.
  unfold load_titles. rewrite list_elem_of_fmap. split.
  - intros (line & -> & Hin). apply list_elem_of_filter in Hin as [Hover Hin].
    unfold over_25_reviews in Hover.
    destruct (Py.int (raw_ratings_count line)) as [n|] eqn:Hint; [|done].
    exists line, n. apply Is_true_true, Z.ltb_lt in Hover. done.
  - intros (line & n & Hin & Hint & Hn & ->). exists line. split; [done|].
    apply list_elem_of_filter. split; [|done].
    unfold over_25_reviews. rewrite Hint. by apply Is_true_true, Z.ltb_lt.
Qed.

(** C7.  Whenever [__init__] returns, Polars reading numbers as [int] does:
    the catalogue holds exactly the rows of the lines whose [ratings_count]
    is read by [int] as a number above 25, so every row in it has [ratings]
    above 25; a line whose count is not a number, or is at most 25, is
    skipped without a trace, the constructor doing on the file what it does
    on the file without that line; and every triple that [search] returns
    is the selection of a catalogue row, so of a book with more than 25
    ratings. *)
Theorem catalogue_over_25 (read_int64 : string → option Z)
    (book_file : list RawBook) map_file interactions self :
  reads_as_int read_int64 →
  construct read_int64 book_file map_file interactions = Py.Return self →
  (∀ b, b ∈ titles self
        ↔ ∃ line n, line ∈ book_file ∧ Py.int (raw_ratings_count line) = Some n
                    ∧ 25 < n ∧ b = to_row line)
  ∧ (∀ b, b ∈ titles self → 25 < ratings b)
  ∧ (∀ l1 line l2,
       Py.int (raw_ratings_count line) = None
       ∨ (∃ n, Py.int (raw_ratings_count line) = Some n ∧ n ≤ 25) →
       construct read_int64 (l1 ++ line :: l2) map_file interactions
       = construct read_int64 (l1 ++ l2) map_file interactions)
  ∧ (∀ line, line ∈ book_file →
       Py.int (raw_ratings_count line) = None
       ∨ (∃ n, Py.int (raw_ratings_count line) = Some n ∧ n ≤ 25) →
       to_row line ∉ titles self)
  ∧ (∀ input res,
       search cosine_similarity introselect self input = Py.Return res →
       ∀ x, x ∈ res → ∃ b, b ∈ titles self ∧ x = select b ∧ 25 < ratings b).
Proof.
  intros Hread Hrun.
  pose proof (construct_Return _ _ _ _ _ Hread Hrun) as Hself.
  assert (Htitles : titles self = load_titles book_file) by by rewrite Hself.
  assert (Hover : ∀ b, b ∈ titles self → 25 < ratings b).
  { intros b Hb. rewrite Htitles in Hb.
    apply load_titles_spec in Hb as (line & n & _ & Hint & Hn & ->).
    cbn. by rewrite Hint. }
  split; [intros b; rewrite Htitles; apply load_titles_spec|].
  split; [exact Hover|]. split; [|split].
  - intros l1 line l2 Hbad. by apply construct_skips, over_25_reviews_false.
  - intros line _ Hbad Hin. apply Hover in Hin. cbn in Hin.
    destruct Hbad as [Hint|(n & Hint & Hn)]; rewrite Hint in Hin; cbn in Hin; lia.
  - intros input res Hsearch x Hx.
    destruct (search_results_from_titles _ _ _ Hsearch x Hx) as (b & Hb & ->).
    exists b. split; [done|]. split; [done | by apply Hover].
Qed.

Lemma lower_char_idem (c : ascii) : Py.lower_char (Py.lower_char c) = Py.lower_char c.
Proof. destruct c as [[] [] [] [] [] [] [] []]; reflexivity. Qed.

(** The normal form does not see the case of the input. *)
Lemma norm_input_lower input : norm_input (Py.lower input) = norm_input input.
Proof.
  unfold norm_input. f_equal. unfold Py.lower.
  rewrite list_ascii_of_string_of_list_ascii, map_map. f_equal.
  apply map_ext. intros c. apply lower_char_idem.
Qed.

(** The normal form is built character by character: a character is kept,
    lower-cased, when it is then in [a-z0-9 ], and dropped otherwise. *)
Lemma norm_input_String (c : ascii) input :
  norm_input (String c input)
  = if Py.in_a_z (Py.lower_char c) || Py.in_0_9 (Py.lower_char c)
       || Py.is_blank (Py.lower_char c)
    then String (Py.lower_char c) (norm_input input)
    else norm_input input.
Proof.
  unfold norm_input, Py.keep, Py.lower. rewrite !list_ascii_of_string_of_list_ascii.
  cbn [list_ascii_of_string map List.filter].
  by destruct (Py.in_a_z (Py.lower_char c) || Py.in_0_9 (Py.lower_char c)
               || Py.is_blank (Py.lower_char c)).
Qed.

(** C6.  [search] reads its input only through [norm_input], the lower-cased
    input without the characters outside [a-z0-9 ]: two inputs with the same
    normal form get the same answer, be it a list of rows or an exception.
    "Harry Potter!" and "harry potter" both have the normal form "harry
    potter", so they get the same ordered results. *)
Theorem search_normalises_input self :
  (∀ q1 q2, norm_input q1 = norm_input q2 →
     search cosine_similarity introselect self q1
     = search cosine_similarity introselect self q2)
  ∧ norm_input "Harry Potter!" = "harry potter"
  ∧ norm_input "harry potter" = "harry potter"
  ∧ search cosine_similarity introselect self "Harry Potter!"
    = search cosine_similarity introselect self "harry potter".
Proof.
  assert (H : ∀ q1 q2, norm_input q1 = norm_input q2 →
     search cosine_similarity introselect self q1
     = search cosine_similarity introselect self q2).
  { intros q1 q2 Hnorm. unfold search, similarity. by rewrite Hnorm. }
  split; [exact H|]. split; [reflexivity|]. split; [reflexivity|].
  apply H. reflexivity.
Qed.

(** X23.  What the selection of line 73 does guarantee: with a routine that meets
    NumPy's contract, no position left out is more similar than any of the
    last ten positions handed on. *)
Lemma search_indices_keep_top_10 (similarity : list Q) (indices : list nat) :
  (∀ a kth, (kth < length a)%nat → partitioned a kth (introselect a kth)) →
  search_indices introselect similarity = Py.Return indices →
  ∀ i x y, (length indices - 10 ≤ i)%nat → indices !! i = Some y →
           (x < length similarity)%nat → x ∉ indices →
           (nth x similarity 0 <= nth y similarity 0)%Q.
Proof.
  intros Hspec Hrun i x y Hi Hy Hx Hout.
  unfold search_indices in Hrun.
  set (n := length similarity) in *.
  destruct (decide (n < 10)%nat) as [Hfew|Hn].
  { destruct similarity as [|s0 rest]; [cbn in Hx; lia|].
    rewrite argpartition_too_few in Hrun; [discriminate Hrun | cbn in *; lia]. }
  rewrite argpartition_enough in Hrun by (unfold n in *; lia).
  cbn in Hrun. injection Hrun as <-. fold n in Hi, Hy, Hout |- *.
  set (kth := (n - 10)%nat) in *.
  destruct (Hspec similarity kth) as [Hperm Hord]; [unfold kth, n in *; lia|].
  set (idx := introselect similarity kth) in *.
  assert (Hlen : length idx = n) by (rewrite Hperm; apply length_seq).
  assert (Hxin : x ∈ idx) by (rewrite Hperm; apply elem_of_seq; unfold n; lia).
  apply list_elem_of_lookup in Hxin as [p Hp].
  unfold Py.last_slice in *. rewrite length_drop, Hlen in Hi.
  rewrite lookup_drop, Hlen in Hy.
  assert (Hpl : (p < n - 50)%nat).
  { destruct (decide (p < n - 50)%nat) as [|Hge]; [done|]. exfalso. apply Hout.
    apply list_elem_of_lookup. exists (p - (n - 50))%nat.
    rewrite lookup_drop, Hlen. by replace (n - 50 + (p - (n - 50)))%nat with p by lia. }
  apply (Hord p (n - 50 + i)%nat x y); [lia | lia | done | done].
Qed.

End SearchProperties.

Lemma catalogue_over_25_witness :
  reads_as_int parse_int64
  ∧ construct parse_int64 sample_books [] [] = Py.Return (init sample_books [] [])
  ∧ (∀ b, b ∈ titles (init sample_books [] []) → 25 < ratings b).
Proof.
  split; [exact parse_int64_reads_as_int|].
  split; [vm_compute; reflexivity|].
  exact (proj1 (proj2 (catalogue_over_25 (table_similarity []) select_by_sort
                         parse_int64 sample_books [] [] (init sample_books [] [])
                         parse_int64_reads_as_int eq_refl))).
Defined.

(** On the shelf, with an admissible selection routine, [search] returns the
    ten most reviewed of the twelve books, for either spelling of the
    query. *)
Example search_shelf :
  search (table_similarity []) select_by_sort shelf "Harry Potter!"
  = Py.Return ((λ i, (pretty i, "Harry Potter " +:+ pretty i,
                      "https://www.goodreads.com/book/show/" +:+ pretty i))
                 <$> reverse (seq 3 10)).
Proof. vm_compute. reflexivity. Qed.

(** C2 on the code.  Line 73 partitions around the tenth position from the
    end and then slices the last fifty positions.  [select_by_sort] meets
    NumPy's contract for a partition; with it, on the fifty-one similarities
    [skewed], the fifty positions handed on contain book 1 (similarity 0) and
    not book 0 (similarity 0.5), which is the eleventh most similar book.
    On [shelf51], where book "0" has the most reviews, [search] therefore
    does not return it. *)
Theorem search_indices_miss_top_50 :
  (∀ a kth, partitioned a kth (select_by_sort a kth))
  ∧ length skewed = 51%nat
  ∧ (∃ indices,
       search_indices select_by_sort skewed = Py.Return indices
       ∧ length indices = 50%nat
       ∧ 1%nat ∈ indices
       ∧ 0%nat ∉ indices)
  ∧ (nth 1 skewed 0 < nth 0 skewed 0)%Q
  ∧ length (List.filter (λ x, negb (Qle_bool x (nth 0 skewed 0%Q))) skewed) = 10%nat
  ∧ (∃ res,
       search (table_similarity skewed) select_by_sort shelf51 "query" = Py.Return res
       ∧ length res = 10%nat
       ∧ ("0", "Most reviewed", "https://www.goodreads.com/book/show/0") ∉ res).
Proof.
  split; [apply select_by_sort_partitioned|].
  split; [reflexivity|].
  split.
  { eexists. split; [vm_compute; reflexivity|]. split; [reflexivity|].
    split; [apply (bool_decide_unpack _); vm_compute; reflexivity|].
    intros H. apply (bool_decide_pack _) in H. vm_compute in H. exact H. }
  split; [reflexivity|].
  split; [vm_compute; reflexivity|].
  eexists. split; [vm_compute; reflexivity|]. split; [reflexivity|].
  intros H. apply (bool_decide_pack _) in H. vm_compute in H. exact H.
Qed.

(** * Further properties *)

(** ** The list of liked books *)

Section LikedBooks.
Implicit Types (self : BookRecommender) (input : string) (l : list string).

Lemma set_liked_books_id self : set_liked_books (liked_books self) self = self.
Proof. by destruct self. Qed.

Lemma set_similar_users_id self : set_similar_users (similar_users self) self = self.
Proof. by destruct self. Qed.

Lemma list_remove_sublist input l : list_remove input l `sublist_of` l.
Proof.
  induction l as [|y l IH]; cbn; [constructor|].
  destruct (decide (input = y)); [by apply sublist_cons | by apply sublist_skip].
Qed.




Lemma list_remove_snoc input l : input ∉ l → list_remove input (l ++ [input]) = l.
Proof.
  induction l as [|y l IH]; intros Hnin; cbn.
  - by destruct (decide (input = input)).
  - apply not_elem_of_cons in Hnin as [Hne Hnin].
    destruct (decide (input = y)); [done|]. by rewrite IH.
Qed.

Lemma remove_liked_book_present self input :
  input ∈ liked_books self →
  remove_liked_book input self
  = (Py.Return (), set_liked_books (list_remove input (liked_books self)) self, []).
Proof.
  intros Hin. unfold remove_liked_book, mbind, M_bind, get_self.
  destruct (decide (input ∈ liked_books self)); [reflexivity | contradiction].
Qed.

Lemma remove_liked_book_absent self input :
  input ∉ liked_books self →
  remove_liked_book input self
  = (Py.Return (), self, ["This value does not exist in the list"]).
Proof.
  intros Hin. unfold remove_liked_book, mbind, M_bind, get_self.
  destruct (decide (input ∈ liked_books self)); [contradiction | reflexivity].
Qed.


(** X2.  Removing a book right after it was added undoes the addition: for
    a text that is new to the list and that [int] reads as a positive
    number, [add_liked_book] followed by [remove_liked_book] prints nothing
    and gives the object back as it was. *)
Theorem add_then_remove_restores self input tmp :
  input ∉ liked_books self → Py.int input = Some tmp → 0 < tmp →
  (add_liked_book input ≫= λ _, remove_liked_book input) self = (Py.Return (), self, []).
Proof.
  intros Hnin Hint Hpos.
  rewrite (bind_return _ _ _ _ _ _ (add_liked_book_appends _ _ _ Hnin Hint Hpos)).
  rewrite remove_liked_book_present by (cbn; apply elem_of_app; right; by left).
  cbn. rewrite list_remove_snoc by done.
  by destruct self.
Qed.

Lemma add_then_remove_restores_witness :
  ("5" ∉ liked_books sample) ∧ Py.int "5" = Some 5 ∧ 0 < 5
  ∧ (add_liked_book "5" ≫= λ _, remove_liked_book "5") sample = (Py.Return (), sample, []).
Proof.
  assert (H1 : "5" ∉ liked_books sample).
  { intros H. apply (bool_decide_pack _) in H. vm_compute in H. exact H. }
  assert (H2 : Py.int "5" = Some 5) by reflexivity.
  assert (H3 : 0 < 5) by lia.
  split; [exact H1|]. split; [exact H2|]. split; [exact H3|].
  exact (add_then_remove_restores sample "5" 5 H1 H2 H3).
Defined.

Lemma add_liked_book_state self input :
  (add_liked_book input self).1.2 = self
  ∨ ((input ∉ liked_books self) ∧ (∃ tmp, Py.int input = Some tmp ∧ 0 < tmp)
     ∧ (add_liked_book input self).1.2
       = set_liked_books (liked_books self ++ [input])%list self).
Proof.
  destruct (decide (input ∈ liked_books self)) as [Hin|Hnin].
  { left. by rewrite add_liked_book_duplicate. }
  destruct (Py.int input) as [tmp|] eqn:Hint.
  2:{ left. by rewrite add_liked_book_not_int. }
  destruct (decide (0 < tmp)) as [Hlt|Hge].
  2:{ left. by rewrite (add_liked_book_not_positive _ _ tmp) by (done || lia). }
  right. split; [done|]. split; [by exists tmp|].
  by rewrite (add_liked_book_appends _ _ tmp).
Qed.

Lemma ids_well_formed_snoc l input tmp :
  ids_well_formed l → input ∉ l → Py.int input = Some tmp → 0 < tmp →
  ids_well_formed (l ++ [input]).
Proof.
  intros [Hnd Hpos] Hnin Hint Htmp. split.
  - apply NoDup_app. split; [done|]. split; [|apply NoDup_singleton].
    intros x Hx ->%list_elem_of_singleton. done.
  - intros x [Hx| ->%list_elem_of_singleton]%elem_of_app; [by apply Hpos | eauto].
Qed.

Lemma add_liked_book_well_formed self input :
  ids_well_formed (liked_books self) →
  ids_well_formed (liked_books (add_liked_book input self).1.2).
Proof.
  intros Hwf.
  destruct (add_liked_book_state self input) as [->|(Hnin & (tmp & Hint & Hpos) & ->)];
    [done|].
  cbn. by eapply ids_well_formed_snoc.
Qed.

(** X3.  The methods that assign [liked_books] keep the list well formed.
    When it holds no text twice and only texts that [int] reads as positive
    numbers, the same is true after [add_liked_book] and after
    [remove_liked_book], whatever the input, and after [reset_liked_books] and
    [reset_recs]. *)
Theorem liked_books_stay_well_formed self :
  ids_well_formed (liked_books self) →
  (∀ input, ids_well_formed (liked_books (add_liked_book input self).1.2))
  ∧ (∀ input, ids_well_formed (liked_books (remove_liked_book input self).1.2))
  ∧ ids_well_formed (liked_books (reset_liked_books self).1.2)
  ∧ ids_well_formed (liked_books (reset_recs self).1.2).
Proof.
  intros Hwf.
  assert (Hnil : ids_well_formed []).
  { split; [constructor | intros x Hx; inversion Hx]. }
  split; [|split; [|split; [exact Hnil | exact Hnil]]].
  - intros input. by apply add_liked_book_well_formed.
  - intros input. destruct Hwf as [Hnd Hpos].
    destruct (decide (input ∈ liked_books self)) as [Hin|Hnin].
    2:{ by rewrite remove_liked_book_absent. }
    rewrite remove_liked_book_present by done. cbn. split.
    + eapply sublist_NoDup; [done | apply list_remove_sublist].
    + intros x Hx. apply Hpos. eapply elem_of_sublist; [exact Hx | apply list_remove_sublist].
Qed.

Lemma liked_books_stay_well_formed_witness :
  ids_well_formed (liked_books fresh)
  ∧ ids_well_formed (liked_books (add_liked_book "5" fresh).1.2).
Proof.
  assert (H : ids_well_formed (liked_books fresh)).
  { split; [constructor | intros x Hx; inversion Hx]. }
  split; [exact H|].
  exact (proj1 (liked_books_stay_well_formed fresh H) "5").
Defined.

End LikedBooks.

(** ** More on [find_similar_users] *)

Section SimilarUsers.
Implicit Types (self : BookRecommender) (d : gmap string string) (row : Interaction).

Lemma set_similar_users_twice (s1 s2 : gset string) self :
  set_similar_users s2 (set_similar_users s1 self) = set_similar_users s2 self.
Proof. reflexivity. Qed.

(** One pass of the loop body: the user of a row rated 4 or more joins the
    set, and nothing else changes. *)
Lemma note_row_run row self :
  ∃ s, note_row row self = (Py.Return (), set_similar_users s self, [])
       ∧ ∀ u, u ∈ s ↔ u ∈ similar_users self ∨ (user_id row = u ∧ 4 ≤ rating row).
Proof.
  unfold note_row, mbind, M_bind, get_self.
  destruct (decide (user_id row ∈ similar_users self)) as [Hin|Hnin].
  - exists (similar_users self). rewrite set_similar_users_id. split; [done|].
    intros u. split; [by left | intros [?|[<- _]]; done].
  - destruct (Z.leb_spec 4 (rating row)) as [Hge|Hlt].
    + exists ({[user_id row]} ∪ similar_users self). split; [done|].
      intros u. rewrite elem_of_union, elem_of_singleton.
      split; [intros [->|?]; [by right | by left] | intros [?|[<- _]]; [by right | by left]].
    + exists (similar_users self). rewrite set_similar_users_id. split; [done|].
      intros u. split; [by left | intros [?|[_ ?]]; [done | lia]].
Qed.

(** The whole loop of lines 120-131. *)
Lemma for_each_note_row (rows : list Interaction) self :
  ∃ s, for_each rows note_row self = (Py.Return (), set_similar_users s self, [])
       ∧ ∀ u, u ∈ s ↔ u ∈ similar_users self
                      ∨ ∃ row, row ∈ rows ∧ user_id row = u ∧ 4 ≤ rating row.
Proof.
  revert self. induction rows as [|row rows IH]; intros self.
  - exists (similar_users self). rewrite set_similar_users_id. split; [done|].
    intros u. split; [by left | intros [?|(row & Hin & _)]; [done | inversion Hin]].
  - destruct (note_row_run row self) as (s1 & Hrun1 & Hs1).
    destruct (IH (set_similar_users s1 self)) as (s2 & Hrun2 & Hs2).
    exists s2. split.
    + cbn [for_each]. rewrite (bind_return _ _ _ _ _ _ Hrun1), Hrun2. reflexivity.
    + intros u. rewrite Hs2. cbn. rewrite Hs1. split.
      * intros [[?|[? ?]]|(r & Hr & ? & ?)]; [by left | right; exists row | right; exists r];
          split_and!; try done; [by left | by right].
      * intros [?|(r & Hr & Hu & Hge)]; [by left; left|].
        apply elem_of_cons in Hr as [->|Hr]; [left; right; done | right; by exists r].
Qed.

(** The run of [find_similar_users] once every liked book is translated. *)
Lemma find_similar_users_run self :
  liked_books self ≠ [] →
  (∀ book, book ∈ liked_books self → is_Some (book_data_to_interactions_map self !! book)) →
  ∃ s, find_similar_users self = (Py.Return (), set_similar_users s self, [])
       ∧ ∀ u, u ∈ s ↔ u ∈ similar_users self
                      ∨ ∃ row book, row ∈ interactions_df self ∧ book ∈ liked_books self
                          ∧ book_data_to_interactions_map self !! book = Some (csv_id row)
                          ∧ user_id row = u ∧ 4 ≤ rating row.
Proof.
  intros Hne Hall.
  destruct (collect_getitem_found _ _ self Hall) as (mapped & Hcollect & Hmapped).
  set (rows := filter (λ row, csv_id row ∈ mapped) (interactions_df self)).
  destruct (for_each_note_row rows self) as (s & Hloop & Hs).
  exists s. split.
  - unfold find_similar_users. unfold mbind at 1. unfold M_bind, get_self at 1.
    destruct (decide (liked_books self = [])) as [?|_]; [contradiction|].
    rewrite (bind_return _ _ _ _ _ _ Hcollect). fold rows. by rewrite Hloop.
  - intros u. rewrite Hs. apply or_iff_compat_l. split.
    + intros (row & [Hcsv Hrow]%list_elem_of_filter & Hu & Hge).
      apply list_elem_of_lookup in Hcsv as [i Hi].
      destruct (Forall2_lookup_r _ _ _ _ _ Hmapped Hi) as (book & Hbook & Hmap).
      exists row, book. split_and!; try done. apply list_elem_of_lookup; eauto.
    + intros (row & book & Hrow & Hbook & Hmap & Hu & Hge).
      exists row. split_and!; try done. apply list_elem_of_filter. split; [|done].
      apply list_elem_of_lookup in Hbook as [i Hi].
      destruct (Forall2_lookup_l _ _ _ _ _ Hmapped Hi) as (csv & Hcsv & Hmap').
      rewrite Hmap in Hmap'. injection Hmap' as <-. apply list_elem_of_lookup; eauto.
Qed.

(** X4.  When the list of liked books is not empty and every liked book has
    an entry in [book_data_to_interactions_map], [find_similar_users] returns
    without printing and changes only the set of similar users: afterwards a
    user is in the set exactly when he was in it before or some interaction
    row of a liked book (through the map) carries his id with a rating of 4
    or more. *)
Theorem find_similar_users_adds_raters self :
  liked_books self ≠ [] →
  (∀ book, book ∈ liked_books self → is_Some (book_data_to_interactions_map self !! book)) →
  ∃ s, find_similar_users self = (Py.Return (), set_similar_users s self, [])
       ∧ liked_books (find_similar_users self).1.2 = liked_books self
       ∧ similar_users self ⊆ s
       ∧ ∀ u, u ∈ s ↔ u ∈ similar_users self
                      ∨ ∃ row book, row ∈ interactions_df self ∧ book ∈ liked_books self
                          ∧ book_data_to_interactions_map self !! book = Some (csv_id row)
                          ∧ user_id row = u ∧ 4 ≤ rating row.
Proof.
  intros Hne Hall.
  destruct (find_similar_users_run self Hne Hall) as (s & Hrun & Hs).
  exists s. split; [exact Hrun|]. split; [by rewrite Hrun|].
  split; [|exact Hs]. intros u Hu. apply Hs. by left.
Qed.

Lemma mapped_liked_translates :
  ∀ book, book ∈ liked_books mapped_liked →
          is_Some (book_data_to_interactions_map mapped_liked !! book).
Proof.
  intros book Hin. cbn in Hin. apply list_elem_of_singleton in Hin as ->.
  exists "10". vm_compute. reflexivity.
Defined.

Lemma find_similar_users_adds_raters_witness :
  liked_books mapped_liked ≠ []
  ∧ (∀ book, book ∈ liked_books mapped_liked →
             is_Some (book_data_to_interactions_map mapped_liked !! book))
  ∧ ∃ s, find_similar_users mapped_liked = (Py.Return (), set_similar_users s mapped_liked, [])
         ∧ similar_users mapped_liked ⊆ s.
Proof.
  assert (H1 : liked_books mapped_liked ≠ []) by discriminate.
  split; [exact H1|]. split; [exact mapped_liked_translates|].
  destruct (find_similar_users_adds_raters mapped_liked H1 mapped_liked_translates)
    as (s & Hrun & _ & Hsub & _).
  exists s. split; [exact Hrun | exact Hsub].
Defined.

(** X5.  Under the same conditions a second call changes nothing more:
    [find_similar_users] twice leaves the object as [find_similar_users]
    once. *)
Theorem find_similar_users_twice self :
  liked_books self ≠ [] →
  (∀ book, book ∈ liked_books self → is_Some (book_data_to_interactions_map self !! book)) →
  (find_similar_users ≫= λ _, find_similar_users) self = find_similar_users self.
Proof.
  intros Hne Hall.
  destruct (find_similar_users_run self Hne Hall) as (s & Hrun & Hs).
  destruct (find_similar_users_run (set_similar_users s self) Hne Hall) as (s' & Hrun' & Hs').
  rewrite (bind_return _ _ _ _ _ _ Hrun), Hrun', Hrun. cbn.
  assert (s' = s) as ->; [|done].
  apply set_eq. intros u. rewrite Hs'. cbn. rewrite Hs. tauto.
Qed.

Lemma find_similar_users_twice_witness :
  liked_books mapped_liked ≠ []
  ∧ (∀ book, book ∈ liked_books mapped_liked →
             is_Some (book_data_to_interactions_map mapped_liked !! book))
  ∧ (find_similar_users ≫= λ _, find_similar_users) mapped_liked
    = find_similar_users mapped_liked.
Proof.
  assert (H1 : liked_books mapped_liked ≠ []) by discriminate.
  split; [exact H1|]. split; [exact mapped_liked_translates|].
  exact (find_similar_users_twice mapped_liked H1 mapped_liked_translates).
Defined.

(** The translation loop stops at the first liked book without an entry. *)
Lemma collect_getitem_first_missing d (l1 l2 : list string) (x : string) self :
  (∀ book, book ∈ l1 → is_Some (d !! book)) → d !! x = None →
  collect (l1 ++ x :: l2) (λ book, eval (getitem d book)) self
  = (Py.Raise (Py.KeyError x), self, []).
Proof.
  intros Hall Hx. induction l1 as [|y l1 IH]; cbn [app collect].
  - apply bind_raise. unfold eval, getitem. by rewrite Hx.
  - destruct (Hall y) as [v Hy]; [by left|].
    rewrite (bind_return _ _ _ _ _ _ (eval_getitem_Some d y v self Hy)).
    rewrite (bind_raise _ _ _ _ _ _ (IH (λ b Hb, Hall b (list_elem_of_further _ _ _ Hb)))).
    reflexivity.
Qed.

Lemma find_similar_users_first_missing self (l : list string) (x : string) :
  liked_books self = (l ++ [x])%list →
  (∀ book, book ∈ l → is_Some (book_data_to_interactions_map self !! book)) →
  book_data_to_interactions_map self !! x = None →
  find_similar_users self = (Py.Raise (Py.KeyError x), self, []).
Proof.
  intros Hliked Hall Hnone.
  unfold find_similar_users. unfold mbind at 1. unfold M_bind, get_self at 1.
  destruct (decide (liked_books self = [])) as [Hnil|_].
  { rewrite Hliked in Hnil. by destruct l. }
  assert (Hcollect :
    collect (liked_books self)
      (λ book, eval (getitem (book_data_to_interactions_map self) book)) self
    = (Py.Raise (Py.KeyError x), self, []))
    by (rewrite Hliked; by apply collect_getitem_first_missing).
  by rewrite (bind_raise _ _ _ _ _ _ Hcollect).
Qed.

(** X6.  [add_liked_book] does not look the book up: a new text that [int]
    reads as a positive number is accepted even when
    [book_data_to_interactions_map] has no entry for it.  When all books liked
    so far have an entry, the next [find_similar_users] then raises
    [KeyError] for that text, with the text still in the list and the set of
    similar users untouched. *)
Theorem unknown_id_is_accepted_then_raises self input tmp :
  (∀ book, book ∈ liked_books self → is_Some (book_data_to_interactions_map self !! book)) →
  input ∉ liked_books self → Py.int input = Some tmp → 0 < tmp →
  book_data_to_interactions_map self !! input = None →
  (add_liked_book input ≫= λ _, find_similar_users) self
  = (Py.Raise (Py.KeyError input),
     set_liked_books (liked_books self ++ [input])%list self, []).
Proof.
  intros Hall Hnin Hint Hpos Hnone.
  rewrite (bind_return _ _ _ _ _ _ (add_liked_book_appends _ _ _ Hnin Hint Hpos)).
  by rewrite (find_similar_users_first_missing
                (set_liked_books (liked_books self ++ [input])%list self)
                (liked_books self) input eq_refl Hall Hnone).
Qed.

Lemma unknown_id_is_accepted_then_raises_witness :
  (∀ book, book ∈ liked_books mapped_liked →
           is_Some (book_data_to_interactions_map mapped_liked !! book))
  ∧ ("01" ∉ liked_books mapped_liked) ∧ Py.int "01" = Some 1 ∧ 0 < 1
  ∧ book_data_to_interactions_map mapped_liked !! "01" = None
  ∧ (add_liked_book "01" ≫= λ _, find_similar_users) mapped_liked
    = (Py.Raise (Py.KeyError "01"),
       set_liked_books (liked_books mapped_liked ++ ["01"])%list mapped_liked, []).
Proof.
  assert (H1 : "01" ∉ liked_books mapped_liked).
  { intros H. apply (bool_decide_pack _) in H. vm_compute in H. exact H. }
  assert (H2 : Py.int "01" = Some 1) by reflexivity.
  assert (H3 : 0 < 1) by lia.
  assert (H4 : book_data_to_interactions_map mapped_liked !! "01" = None)
    by (vm_compute; reflexivity).
  split; [exact mapped_liked_translates|]. split; [exact H1|]. split; [exact H2|].
  split; [exact H3|]. split; [exact H4|].
  exact (unknown_id_is_accepted_then_raises mapped_liked "01" 1
           mapped_liked_translates H1 H2 H3 H4).
Defined.

Lemma find_similar_users_state self :
  ∃ s, (find_similar_users self).1.2 = set_similar_users s self
       ∧ similar_users self ⊆ s.
Proof.
  destruct (decide (liked_books self = [])) as [Hnil|Hne].
  - exists (similar_users self). rewrite set_similar_users_id. split; [|done].
    unfold find_similar_users, mbind, M_bind, get_self.
    by destruct (decide (liked_books self = [])).
  - destruct (decide (Forall (λ book, is_Some (book_data_to_interactions_map self !! book))
                        (liked_books self))) as [Hall|Hmiss].
    + rewrite Forall_forall in Hall.
      destruct (find_similar_users_run self Hne Hall) as (s & Hrun & Hs).
      exists s. rewrite Hrun. split; [done|]. intros u Hu. apply Hs. by left.
    + apply not_Forall_Exists, Exists_exists in Hmiss as (book & Hin & Hnone); [|apply _].
      apply eq_None_not_Some in Hnone.
      destruct (collect_getitem_missing (book_data_to_interactions_map self)
                  (liked_books self) self) as (missing & Hrun & _); [by exists book|].
      exists (similar_users self). rewrite set_similar_users_id. split; [|done].
      unfold find_similar_users. unfold mbind at 1. unfold M_bind, get_self at 1.
      destruct (decide (liked_books self = [])); [done|].
      by rewrite (bind_raise _ _ _ _ _ _ Hrun).
Qed.

(** X7.  Whatever the outcome of [find_similar_users], be it a return or a
    [KeyError], the call leaves the catalogue, the interactions, both
    identifier maps and the list of liked books as they are, and never takes
    a user out of the set of similar users. *)
Theorem find_similar_users_only_grows self :
  titles (find_similar_users self).1.2 = titles self
  ∧ interactions_df (find_similar_users self).1.2 = interactions_df self
  ∧ interactions_to_book_data_map (find_similar_users self).1.2
    = interactions_to_book_data_map self
  ∧ book_data_to_interactions_map (find_similar_users self).1.2
    = book_data_to_interactions_map self
  ∧ liked_books (find_similar_users self).1.2 = liked_books self
  ∧ similar_users self ⊆ similar_users (find_similar_users self).1.2.
Proof.
  destruct (find_similar_users_state self) as (s & Hstate & Hsub).
  rewrite Hstate. cbn. split_and!; done.
Qed.

End SimilarUsers.

(** ** More on [find_recs] *)

Section Recommendations.
Implicit Types (self : BookRecommender) (d : gmap string string).

Lemma mapM_cons_outcome {A B} (f : A → Py.outcome B) (x : A) (l : list A) :
  mapM f (x :: l) = f x ≫= λ y, mapM f l ≫= λ k, mret (y :: k).
Proof. reflexivity. Qed.

Lemma outcome_bind_Return_l {A B} (a : A) (k : A → Py.outcome B) :
  Py.Return a ≫= k = k a.
Proof. reflexivity. Qed.

Lemma outcome_bind_Raise_l {A B} (e : Py.exn) (k : A → Py.outcome B) :
  Py.Raise e ≫= k = Py.Raise e.
Proof. reflexivity. Qed.

Lemma getitem_Some d (key v : string) : d !! key = Some v → getitem d key = Py.Return v.
Proof. intros H. unfold getitem. by rewrite H. Qed.

Lemma getitem_None d (key : string) :
  d !! key = None → getitem d key = Py.Raise (Py.KeyError key).
Proof. intros H. unfold getitem. by rewrite H. Qed.

(** The translation loop of lines 150-152. *)
Lemma mapM_getitem_found d (rows : list (string * Z)) :
  (∀ row, row ∈ rows → is_Some (d !! row.1)) →
  ∃ ids, mapM (λ row : string * Z, getitem d row.1) rows = Py.Return ids.
Proof.
  induction rows as [|row rows IH]; intros Hall; [by exists []|].
  destruct (Hall row) as [v Hv]; [by left|].
  destruct IH as [ids Hids]; [intros r Hr; apply Hall; by right|].
  exists (v :: ids). rewrite mapM_cons_outcome. cbv beta.
  by rewrite (getitem_Some _ _ _ Hv), outcome_bind_Return_l, Hids.
Qed.

Lemma mapM_getitem_missing d (rows : list (string * Z)) :
  (∃ row, row ∈ rows ∧ d !! row.1 = None) →
  ∃ missing, mapM (λ row : string * Z, getitem d row.1) rows = Py.Raise (Py.KeyError missing)
             ∧ d !! missing = None.
Proof.
  induction rows as [|row rows IH]; intros (r & Hin & Hnone); [inversion Hin|].
  destruct (d !! row.1) as [v|] eqn:Hv.
  - destruct IH as (missing & Hrun & Hm).
    { exists r. split; [|done]. apply elem_of_cons in Hin as [->|?]; [congruence | done]. }
    exists missing. split; [|done]. rewrite mapM_cons_outcome. cbv beta.
    by rewrite (getitem_Some _ _ _ Hv), outcome_bind_Return_l, Hrun.
  - exists row.1. split; [|done]. rewrite mapM_cons_outcome. cbv beta.
    by rewrite (getitem_None _ _ Hv).
Qed.

Lemma find_recs_state self : (find_recs self).1.2 = self.
Proof.
  unfold find_recs, mbind, M_bind, get_self.
  destruct (decide (size (similar_users self) = 0%nat)); [done|].
  unfold eval. by destruct (sorted_recs self).
Qed.

Lemma top_recs_spec self (recs : list Rec) x :
  x ∈ top_recs self recs →
  ∃ r, r ∈ recs ∧ x = select (book r) ∧ book_id (book r) ∉ liked_books self.
Proof.
  unfold top_recs. intros Hx%elem_of_head.
  apply list_elem_of_fmap in Hx as (r & -> & Hr).
  apply list_elem_of_filter in Hr as [Hliked Hr]. by exists r.
Qed.

Lemma top_recs_length self (recs : list Rec) : (length (top_recs self recs) ≤ 10)%nat.
Proof. unfold top_recs, Py.head. rewrite length_take. lia. Qed.

(** X8.  With no similar user, [find_recs] prints "Error: no similar users
    found" (EmptyNeighborhoodError), returns an empty frame and leaves the
    object as it is. *)
Theorem find_recs_no_similar_users self :
  size (similar_users self) = 0%nat →
  find_recs self = (Py.Return [], self, ["Error: no similar users found"])
  ∧ reported (find_recs self) = [EmptyNeighborhoodError].
Proof.
  intros Hempty.
  assert (Hrun : find_recs self = (Py.Return [], self, ["Error: no similar users found"])).
  { unfold find_recs, mbind, M_bind, get_self.
    destruct (decide (size (similar_users self) = 0%nat)); [reflexivity | contradiction]. }
  by rewrite Hrun.
Qed.

Lemma find_recs_no_similar_users_witness :
  size (similar_users fresh) = 0%nat
  ∧ reported (find_recs fresh) = [EmptyNeighborhoodError].
Proof.
  assert (H : size (similar_users fresh) = 0%nat) by reflexivity.
  split; [exact H|]. exact (proj2 (find_recs_no_similar_users fresh H)).
Defined.

(** X9.  [find_recs] never changes the object, whatever its outcome.  When
    it returns, it returns at most ten rows, each the selection of a catalogue
    row, and none with the id of a liked book. *)
Theorem find_recs_results self :
  (find_recs self).1.2 = self
  ∧ ∀ res, (find_recs self).1.1 = Py.Return res →
      (length res ≤ 10)%nat
      ∧ ∀ x, x ∈ res →
          (x.1.1 ∉ liked_books self) ∧ ∃ b, b ∈ titles self ∧ x = select b.
Proof.
  split; [apply find_recs_state|]. intros res.
  unfold find_recs, mbind, M_bind, get_self.
  destruct (decide (size (similar_users self) = 0%nat)) as [_|Hne].
  - cbn. intros [= <-]. split; [cbn; lia | intros x Hx; inversion Hx].
  - unfold eval. destruct (sorted_recs self) as [recs|e] eqn:Hrecs; [|discriminate].
    cbn. intros Hres. apply Return_inj in Hres. subst res.
    split; [apply top_recs_length|]. intros x Hx.
    apply top_recs_spec in Hx as (r & Hr & -> & Hliked). split; [exact Hliked|].
    apply (sorted_recs_rows _ _ _ Hrecs) in Hr as (b & csv & -> & Hb & _).
    by exists b.
Qed.

(** X10.  With some similar user, what [find_recs] does is decided by the
    interaction items counted above the cut-off.  When there is none, the
    join of line 158 raises [SchemaError]; when one of them has no entry in
    [interactions_to_book_data_map], the look-up of line 152 raises
    [KeyError] for an item without entry; and when there are some and all
    have an entry, the call returns and prints nothing.  In every case the
    object is unchanged. *)
Theorem find_recs_needs_the_map self :
  size (similar_users self) ≠ 0%nat →
  (neighbor_counts self = [] →
     find_recs self = (Py.Raise Py.SchemaError, self, []))
  ∧ (neighbor_counts self ≠ [] →
     (∀ row, row ∈ neighbor_counts self →
             is_Some (interactions_to_book_data_map self !! row.1)) →
     ∃ recs, sorted_recs self = Py.Return recs
             ∧ find_recs self = (Py.Return (top_recs self recs), self, []))
  ∧ (∀ row, row ∈ neighbor_counts self →
            interactions_to_book_data_map self !! row.1 = None →
     ∃ missing, find_recs self = (Py.Raise (Py.KeyError missing), self, [])
                ∧ interactions_to_book_data_map self !! missing = None).
Proof.
  intros Hne.
  assert (Hraise : ∀ e, sorted_recs self = Py.Raise e →
                        find_recs self = (Py.Raise e, self, [])).
  { intros e Hrun. unfold find_recs, mbind, M_bind, get_self.
    destruct (decide (size (similar_users self) = 0%nat)); [contradiction|].
    unfold eval. by rewrite Hrun. }
  split; [|split].
  - intros Hnil. apply Hraise. unfold sorted_recs. by rewrite Hnil.
  - intros Hsome Hall. destruct (mapM_getitem_found _ _ Hall) as [ids Hids].
    assert (Hlen : ids ≠ []).
    { apply mapM_Return, Forall2_length in Hids. intros ->.
      by destruct (neighbor_counts self). }
    assert (Hrun : ∃ recs, sorted_recs self = Py.Return recs).
    { unfold sorted_recs. rewrite Hids, outcome_bind_Return_l.
      destruct (decide (ids = [])); [contradiction | by eexists]. }
    destruct Hrun as [recs Hrun]. exists recs. split; [exact Hrun|].
    by apply find_recs_returns.
  - intros row Hrow Hnone.
    destruct (mapM_getitem_missing (interactions_to_book_data_map self)
                (neighbor_counts self)) as (missing & Hrun & Hm); [by exists row|].
    exists missing. split; [|done].
    apply Hraise. unfold sorted_recs. by rewrite Hrun.
Qed.

Lemma find_recs_needs_the_map_witness :
  size (similar_users sample) ≠ 0%nat
  ∧ ∃ recs, sorted_recs sample = Py.Return recs
            ∧ find_recs sample = (Py.Return (top_recs sample recs), sample, []).
Proof.
  assert (H1 : size (similar_users sample) ≠ 0%nat).
  { intros H. vm_compute in H. discriminate H. }
  split; [exact H1|].
  assert (Hcounts : neighbor_counts sample = [("2", 26); ("1", 30); ("9", 30)])
    by (vm_compute; reflexivity).
  apply (proj1 (proj2 (find_recs_needs_the_map sample H1))).
  - rewrite Hcounts. discriminate.
  - intros row Hrow. rewrite Hcounts in Hrow.
    repeat (apply elem_of_cons in Hrow as [->|Hrow]; [eexists; vm_compute; reflexivity|]).
    inversion Hrow.
Defined.

(** With one similar user whose ratings are too few to lift any item above
    the cut-off, [find_recs] raises. *)
Example find_recs_nothing_above_25 :
  find_recs (set_similar_users {["u0"]} sample)
  = (Py.Raise Py.SchemaError, set_similar_users {["u0"]} sample, []).
Proof. vm_compute. reflexivity. Qed.

Lemma filter_not_liked_nil (recs : list Rec) :
  filter (λ r, book_id (book r) ∉ @nil string) recs = recs.
Proof.
  induction recs as [|r recs IH]; [done|].
  rewrite filter_cons_True by apply not_elem_of_nil. by rewrite IH.
Qed.

(** X11.  The liked books only filter the recommendations: the sorted
    frame, or the exception in its place, does not depend on them, and when
    there is a frame the [find_recs] after [reset_liked_books] returns the
    selection of its first ten rows. *)
Theorem reset_liked_books_then_find_recs self (recs : list Rec) :
  size (similar_users self) ≠ 0%nat →
  sorted_recs self = Py.Return recs →
  (∀ l, sorted_recs (set_liked_books l self) = Py.Return recs)
  ∧ (reset_liked_books ≫= λ _, find_recs) self
    = (Py.Return (Py.head 10 ((select ∘ book) <$> recs)), set_liked_books [] self, []).
Proof.
  intros Hne Hrun. split; [intros l; exact Hrun|].
  unfold reset_liked_books.
  assert (Hassign : assign (set_liked_books []) self
                    = (Py.Return (), set_liked_books [] self, [])) by reflexivity.
  rewrite (bind_return _ _ _ _ _ _ Hassign).
  rewrite (find_recs_returns (set_liked_books [] self) recs Hne Hrun).
  unfold top_recs. cbn [liked_books set_liked_books]. by rewrite filter_not_liked_nil.
Qed.

Lemma reset_liked_books_then_find_recs_witness :
  size (similar_users sample) ≠ 0%nat
  ∧ ∃ recs, sorted_recs sample = Py.Return recs
      ∧ (reset_liked_books ≫= λ _, find_recs) sample
        = (Py.Return (Py.head 10 ((select ∘ book) <$> recs)), set_liked_books [] sample, []).
Proof.
  assert (H1 : size (similar_users sample) ≠ 0%nat).
  { intros H. vm_compute in H. discriminate H. }
  split; [exact H1|].
  eexists. split; [vm_compute; reflexivity|].
  exact (proj2 (reset_liked_books_then_find_recs sample _ H1 eq_refl)).
Defined.

(** X24.  [reset_recs] puts the session back to its start: whatever was
    liked and whoever was found similar, right after it
    [find_similar_users] reports "Error: no books entered" and [find_recs]
    reports "Error: no similar users found" and returns an empty frame, and
    the object is left with an empty list and an empty set. *)
Theorem reset_recs_clears_round self :
  (reset_recs ≫= λ _, find_similar_users ≫= λ _, find_recs) self
  = (Py.Return [], set_similar_users ∅ (set_liked_books [] self),
     ["Error: no books entered"; "Error: no similar users found"])
  ∧ liked_books (reset_recs self).1.2 = []
  ∧ similar_users (reset_recs self).1.2 = ∅
  ∧ same_data self (reset_recs self).1.2.
Proof.
  split; [|by repeat split].
  set (self' := set_similar_users ∅ (set_liked_books [] self)).
  assert (H1 : reset_recs self = (Py.Return (), self', [])) by reflexivity.
  assert (H2 : find_similar_users self'
               = (Py.Return (), self', ["Error: no books entered"])) by reflexivity.
  assert (H3 : find_recs self'
               = (Py.Return [], self', ["Error: no similar users found"])) by reflexivity.
  rewrite (bind_return _ _ _ _ _ _ H1), (bind_return _ _ _ _ _ _ H2), H3. reflexivity.
Qed.

End Recommendations.

(** ** More on [search] *)

Section SearchResults.
Variable cosine_similarity : list string → string → list Q.
Variable introselect : list Q → nat → list nat.
Implicit Types (self : BookRecommender) (input : string).

#[local] Instance ratings_ge_trans : Transitive ratings_ge.
Proof. intros a b c. unfold ratings_ge. lia. Qed.

#[local] Instance ratings_ge_total : Total ratings_ge.
Proof. intros a b. unfold ratings_ge. lia. Qed.

Lemma take_rows_valid (rows : list Book) (indices : list nat) :
  (∀ i, i ∈ indices → (i < length rows)%nat) →
  ∃ rs, take_rows rows indices = Py.Return rs ∧ length rs = length indices.
Proof.
  unfold take_rows. induction indices as [|i indices IH]; intros Hall.
  - by exists [].
  - destruct (lookup_lt_is_Some_2 rows i) as [r Hr]; [apply Hall; by left|].
    destruct IH as (rs & Hrs & Hlen); [intros j Hj; apply Hall; by right|].
    exists (r :: rs). rewrite mapM_cons_outcome. cbv beta.
    rewrite Hr, outcome_bind_Return_l, Hrs. cbn. by rewrite Hlen.
Qed.

(** Line 73 with fewer than ten similarities. *)
Lemma search_indices_too_few (sims : list Q) :
  (0 < length sims < 10)%nat →
  search_indices introselect sims
  = Py.Raise (Py.ValueError ("kth(=" +:+ pretty (-10 + Z.of_nat (length sims))
                             +:+ ") out of bounds (" +:+ pretty (Z.of_nat (length sims))
                             +:+ ")")).
Proof.
  intros Hlen. unfold search_indices. by rewrite argpartition_too_few.
Qed.

(** Line 73 with ten similarities or more, for a routine that meets NumPy's
    contract: the positions handed on are in range, and there are fifty of
    them, or all when there are fewer. *)
Lemma search_indices_in_range (sims : list Q) :
  (∀ a kth, (kth < length a)%nat → partitioned a kth (introselect a kth)) →
  (10 ≤ length sims)%nat →
  ∃ indices, search_indices introselect sims = Py.Return indices
             ∧ length indices = (length sims `min` 50)%nat
             ∧ ∀ i, i ∈ indices → (i < length sims)%nat.
Proof.
  intros Hspec Hlen. unfold search_indices.
  rewrite argpartition_enough by done.
  cbn [fmap outcome_fmap].
  set (kth := (length sims - 10)%nat).
  destruct (Hspec sims kth) as [Hperm _]; [unfold kth; lia|].
  eexists. split; [reflexivity|].
  assert (Hl : length (introselect sims kth) = length sims)
    by (rewrite Hperm; apply length_seq).
  split.
  - unfold Py.last_slice. rewrite length_drop, Hl. lia.
  - intros i Hi. unfold Py.last_slice in Hi.
    assert (Hin : i ∈ introselect sims kth).
    { eapply elem_of_sublist; [exact Hi | apply sublist_drop]. }
    rewrite Hperm in Hin. apply elem_of_seq in Hin. lia.
Qed.

(** X12.  [search] needs ten books: when the similarity vector has some
    but fewer than ten entries, [np.argpartition(similarity, -10)] is out of
    bounds and [search] raises NumPy's [ValueError], whatever the query: with
    three entries, "kth(=-7) out of bounds (3)". *)
Theorem search_too_few_books self input :
  (0 < length (similarity cosine_similarity self input) < 10)%nat →
  search cosine_similarity introselect self input
  = Py.Raise
      (Py.ValueError
         ("kth(=" +:+ pretty (-10 + Z.of_nat (length (similarity cosine_similarity self input)))
          +:+ ") out of bounds ("
          +:+ pretty (Z.of_nat (length (similarity cosine_similarity self input))) +:+ ")")).
Proof.
  intros Hlen. unfold search.
  rewrite (search_indices_too_few _ Hlen). reflexivity.
Qed.

(** X13.  Whenever [search] returns, it returns at most ten rows, all of
    them selections of catalogue rows, in descending order of [ratings]. *)
Theorem search_results_sorted self input res :
  search cosine_similarity introselect self input = Py.Return res →
  ∃ rows, res = select <$> rows
          ∧ (length rows ≤ 10)%nat
          ∧ StronglySorted ratings_ge rows
          ∧ ∀ b, b ∈ rows → b ∈ titles self.
Proof.
  unfold search. intros Hrun.
  apply outcome_bind_Return in Hrun as (indices & _ & Hrun).
  apply outcome_bind_Return in Hrun as (rows & Hrows & Hrun).
  apply Return_inj in Hrun. subst res.
  exists (take 10 (merge_sort ratings_ge rows)).
  split; [unfold Py.head; by rewrite fmap_take|].
  split; [rewrite length_take; lia|]. split.
  - eapply StronglySorted_sublist; [apply sublist_take|].
    apply StronglySorted_merge_sort; apply _.
  - intros b Hb. eapply take_rows_sound; [exact Hrows|].
    rewrite <- (merge_sort_Permutation ratings_ge rows).
    eapply elem_of_sublist; [exact Hb | apply sublist_take].
Qed.

(** X14.  With a selection routine that meets NumPy's contract, a
    similarity vector as long as the catalogue and at least ten books,
    [search] does not raise and returns exactly ten rows. *)
Theorem search_returns_ten self input :
  (∀ a kth, (kth < length a)%nat → partitioned a kth (introselect a kth)) →
  length (similarity cosine_similarity self input) = length (titles self) →
  (10 ≤ length (titles self))%nat →
  ∃ res, search cosine_similarity introselect self input = Py.Return res
         ∧ length res = 10%nat.
Proof.
  intros Hspec Hsame Hten.
  destruct (search_indices_in_range (similarity cosine_similarity self input) Hspec)
    as (indices & Hidx & Hlen & Hrange); [lia|].
  destruct (take_rows_valid (titles self) indices) as (rows & Hrows & Hrlen).
  { intros i Hi. rewrite <- Hsame. by apply Hrange. }
  eexists. split.
  - unfold search. rewrite Hidx, outcome_bind_Return_l, Hrows, outcome_bind_Return_l.
    reflexivity.
  - unfold Py.head. rewrite length_take, length_fmap.
    rewrite (Permutation_length (merge_sort_Permutation ratings_ge rows)). lia.
Qed.

End SearchResults.

Lemma search_too_few_books_witness :
  (0 < length (similarity (table_similarity []) sample "Book A") < 10)%nat
  ∧ search (table_similarity []) select_by_sort sample "Book A"
    = Py.Raise (Py.ValueError "kth(=-7) out of bounds (3)").
Proof.
  assert (H : (0 < length (similarity (table_similarity []) sample "Book A") < 10)%nat)
    by (vm_compute; lia).
  split; [exact H|].
  exact (search_too_few_books (table_similarity []) select_by_sort sample "Book A" H).
Defined.

Lemma search_results_sorted_witness :
  ∃ res, search (table_similarity []) select_by_sort shelf "harry" = Py.Return res
         ∧ ∃ rows, res = select <$> rows ∧ StronglySorted ratings_ge rows.
Proof.
  eexists. split; [vm_compute; reflexivity|].
  edestruct (search_results_sorted (table_similarity []) select_by_sort shelf "harry" _ eq_refl)
    as (rows & Hres & _ & Hsorted & _).
  exists rows. split; [exact Hres | exact Hsorted].
Defined.

Lemma search_returns_ten_witness :
  (∀ a kth, (kth < length a)%nat → partitioned a kth (select_by_sort a kth))
  ∧ length (similarity (table_similarity []) shelf "harry") = length (titles shelf)
  ∧ (10 ≤ length (titles shelf))%nat
  ∧ ∃ res, search (table_similarity []) select_by_sort shelf "harry" = Py.Return res
           ∧ length res = 10%nat.
Proof.
  assert (H1 : ∀ a kth, (kth < length a)%nat → partitioned a kth (select_by_sort a kth))
    by (intros a kth _; apply select_by_sort_partitioned).
  assert (H2 : length (similarity (table_similarity []) shelf "harry") = length (titles shelf))
    by (vm_compute; reflexivity).
  assert (H3 : (10 ≤ length (titles shelf))%nat) by (vm_compute; lia).
  split; [exact H1|]. split; [exact H2|]. split; [exact H3|].
  exact (search_returns_ten (table_similarity []) select_by_sort shelf "harry" H1 H2 H3).
Defined.

Lemma search_indices_keep_top_10_witness :
  (∀ a kth, (kth < length a)%nat → partitioned a kth (select_by_sort a kth))
  ∧ ∃ indices, search_indices select_by_sort skewed = Py.Return indices
      ∧ indices !! 49%nat = Some 47%nat
      ∧ (0%nat ∉ indices)
      ∧ (nth 0 skewed 0 <= nth 47 skewed 0)%Q.
Proof.
  assert (H1 : ∀ a kth, (kth < length a)%nat → partitioned a kth (select_by_sort a kth))
    by (intros a kth _; apply select_by_sort_partitioned).
  split; [exact H1|].
  eexists. split; [vm_compute; reflexivity|].
  assert (H2 : ∀ l : list nat, bool_decide (0%nat ∈ l) = false → 0%nat ∉ l).
  { intros l Hl Hin. apply (bool_decide_pack _) in Hin. by rewrite Hl in Hin. }
  split; [reflexivity|]. split; [apply H2; vm_compute; reflexivity|].
  eapply (search_indices_keep_top_10 select_by_sort skewed _ H1 eq_refl 49 0 47).
  - vm_compute. lia.
  - reflexivity.
  - vm_compute. lia.
  - apply H2. vm_compute. reflexivity.
Defined.

(** ** More on the identifier maps and the normal forms *)

Section MapsAndNormalForms.
Implicit Types (map_file : list (string * string)) (csv book : string).

Lemma load_maps_last map_file :
  (∀ csv, (load_maps map_file).1 !! csv
          = snd <$> last (filter (λ line, line.1 = csv) map_file))
  ∧ (∀ book, (load_maps map_file).2 !! book
             = fst <$> last (filter (λ line, line.2 = book) map_file)).
Proof.
  induction map_file as [|[c b] l [IH1 IH2]] using rev_ind.
  - split; intros; cbn; by rewrite lookup_empty.
  - rewrite load_maps_snoc. cbn [fst snd]. split.
    + intros csv. rewrite filter_app. destruct (decide (c = csv)) as [->|Hne].
      * rewrite lookup_insert_eq, (filter_cons_True _ (csv, b)) by done.
        rewrite filter_nil, last_snoc. done.
      * rewrite lookup_insert_ne, (filter_cons_False _ (c, b)) by done.
        rewrite filter_nil, app_nil_r. apply IH1.
    + intros book. rewrite filter_app. destruct (decide (b = book)) as [->|Hne].
      * rewrite lookup_insert_eq, (filter_cons_True _ (c, book)) by done.
        rewrite filter_nil, last_snoc. done.
      * rewrite lookup_insert_ne, (filter_cons_False _ (c, b)) by done.
        rewrite filter_nil, app_nil_r. apply IH2.
Qed.

(** X15.  A look-up in either identifier map answers with the last line of
    the map file that carries the key, and raises [KeyError] for the key when
    no line carries it. *)
Theorem identifier_lookup_last_line_wins book_file map_file interactions csv book :
  to_catalog_id (init book_file map_file interactions) csv
  = match last (filter (λ line, line.1 = csv) map_file) with
    | Some line => Py.Return line.2
    | None => Py.Raise (Py.KeyError csv)
    end
  ∧ to_interaction_id (init book_file map_file interactions) book
    = match last (filter (λ line, line.2 = book) map_file) with
      | Some line => Py.Return line.1
      | None => Py.Raise (Py.KeyError book)
      end.
Proof.
  destruct (load_maps_last map_file) as [H1 H2].
  unfold to_catalog_id, to_interaction_id, getitem, init; cbn.
  rewrite H1, H2. split.
  - by destruct (last (filter (λ line, line.1 = csv) map_file)).
  - by destruct (last (filter (λ line, line.2 = book) map_file)).
Qed.

(** X16.  The round trip from the interaction side: when no catalogue id
    stands on two lines of the map file with different interaction ids, every
    line [(csv, book)] of the file gives [csv] back when [csv] is translated
    to the catalogue and the answer is translated again. *)
Theorem identifier_round_trip_back book_file map_file interactions :
  (∀ c1 c2 book, (c1, book) ∈ map_file → (c2, book) ∈ map_file → c1 = c2) →
  ∀ csv book, (csv, book) ∈ map_file →
    to_catalog_id (init book_file map_file interactions) csv
      ≫= to_interaction_id (init book_file map_file interactions)
    = Py.Return csv.
Proof.
  intros Hfun csv book Hin.
  destruct (load_maps_sound map_file) as [S1 S2].
  destruct (load_maps_complete map_file csv book Hin) as [[book' Hc] _].
  pose proof (S1 _ _ Hc) as Hin'.
  destruct (load_maps_complete map_file csv book' Hin') as [_ [csv' Hb]].
  pose proof (S2 _ _ Hb) as Hin''.
  assert (csv' = csv) as -> by (eapply Hfun; eauto).
  unfold to_interaction_id, to_catalog_id, getitem, init; cbn.
  rewrite Hc. cbn. by rewrite Hb.
Qed.

Lemma identifier_round_trip_back_witness :
  (∀ c1 c2 book : string,
      (c1, book) ∈ [("10", "1"); ("20", "2")] → (c2, book) ∈ [("10", "1"); ("20", "2")] →
      c1 = c2)
  ∧ ("20", "2") ∈ [("10", "1"); ("20", "2")]
  ∧ to_catalog_id (init [] [("10", "1"); ("20", "2")] []) "20"
      ≫= to_interaction_id (init [] [("10", "1"); ("20", "2")] [])
    = Py.Return "20".
Proof.
  assert (Hfun : ∀ c1 c2 book : string,
             (c1, book) ∈ [("10", "1"); ("20", "2")] →
             (c2, book) ∈ [("10", "1"); ("20", "2")] → c1 = c2).
  { intros c1 c2 book H1 H2. set_unfold. destruct_or!; simplify_eq; done. }
  assert (Hin : ("20", "2") ∈ [("10", "1"); ("20", "2")]) by (right; left).
  split; [exact Hfun|]. split; [exact Hin|].
  exact (identifier_round_trip_back [] [("10", "1"); ("20", "2")] [] Hfun "20" "2" Hin).
Defined.

Lemma class_of_lower (c : ascii) :
  Py.in_a_z c || Py.in_A_Z c || Py.in_0_9 c || Py.is_blank c
  = Py.in_a_z (Py.lower_char c) || Py.in_0_9 (Py.lower_char c)
    || Py.is_blank (Py.lower_char c).
Proof. destruct c as [[] [] [] [] [] [] [] []]; reflexivity. Qed.

Lemma map_filter_commute {A} (f : A → A) (P Q : A → bool) (l : list A) :
  (∀ x, P x = Q (f x)) → map f (List.filter P l) = List.filter Q (map f l).
Proof.
  intros HPQ. induction l as [|x l IH]; [done|]. cbn. rewrite <- HPQ.
  destruct (P x); cbn; by rewrite IH.
Qed.

(** X17.  The catalogue and the query are normalised by two different
    expressions (strip outside [a-zA-Z0-9 ] then lower-case; lower-case then
    strip outside [a-z0-9 ]).  On a title of ASCII characters both give the
    same text: the stored [norm_titles] of a book is the normal form [search]
    computes when the title itself is the query. *)
Theorem title_and_query_normal_forms_agree (line : RawBook) :
  Forall (λ c, Py.code c < 128) (list_ascii_of_string (raw_title_without_series line)) →
  norm_titles (to_row line) = norm_input (raw_title_without_series line).
Proof.
  intros _. unfold to_row, norm_input, Py.lower, Py.keep. cbn [norm_titles].
  rewrite !list_ascii_of_string_of_list_ascii. f_equal.
  apply map_filter_commute, class_of_lower.
Qed.

Lemma title_and_query_normal_forms_agree_witness :
  Forall (λ c, Py.code c < 128)
         (list_ascii_of_string (raw_title_without_series (raw_book "A" "Book A!" "300")))
  ∧ norm_titles (to_row (raw_book "A" "Book A!" "300")) = norm_input "Book A!".
Proof.
  assert (H : Forall (λ c, Py.code c < 128)
                (list_ascii_of_string (raw_title_without_series (raw_book "A" "Book A!" "300")))).
  { cbn. repeat (constructor; [reflexivity|]). constructor. }
  split; [exact H|].
  exact (title_and_query_normal_forms_agree (raw_book "A" "Book A!" "300") H).
Defined.

Lemma filter_idem {A} (P : A → bool) (l : list A) :
  List.filter P (List.filter P l) = List.filter P l.
Proof.
  induction l as [|x l IH]; [done|]. cbn. destruct (P x) eqn:HP; cbn; [|done].
  by rewrite HP, IH.
Qed.

Lemma lower_char_fixes_class (c : ascii) :
  Py.in_a_z c || Py.in_0_9 c || Py.is_blank c = true → Py.lower_char c = c.
Proof. destruct c as [[] [] [] [] [] [] [] []]; (reflexivity || discriminate). Qed.

(** X18.  The normal form of a query holds only characters of [a-z0-9 ],
    and normalising it again changes nothing. *)
Theorem norm_input_is_normal (input : string) :
  Forall (λ c, Py.in_a_z c || Py.in_0_9 c || Py.is_blank c = true)
         (list_ascii_of_string (norm_input input))
  ∧ norm_input (norm_input input) = norm_input input.
Proof.
  assert (Hclass : Forall (λ c, Py.in_a_z c || Py.in_0_9 c || Py.is_blank c = true)
                     (list_ascii_of_string (norm_input input))).
  { unfold norm_input, Py.keep. rewrite list_ascii_of_string_of_list_ascii.
    apply Forall_forall. intros c Hc. apply list_elem_of_In, filter_In in Hc. tauto. }
  split; [exact Hclass|].
  unfold norm_input at 1. unfold Py.keep, Py.lower.
  rewrite list_ascii_of_string_of_list_ascii.
  assert (Hmap : map Py.lower_char (list_ascii_of_string (norm_input input))
                 = list_ascii_of_string (norm_input input)).
  { rewrite <- (map_id (list_ascii_of_string (norm_input input))) at 2.
    apply map_ext_Forall. eapply Forall_impl; [exact Hclass|].
    intros c Hc. by apply lower_char_fixes_class. }
  rewrite Hmap. unfold norm_input, Py.keep.
  by rewrite list_ascii_of_string_of_list_ascii, filter_idem.
Qed.

End MapsAndNormalForms.

(** ** [main] *)

Section MainRuns.
Variable cosine_similarity : list string → string → list Q.
Variable introselect : list Q → nat → list nat.
Implicit Types (w : Console) (self : BookRecommender).

Lemma IO_bind_Done {A B} (m : IO A) (k : A → IO B) w a w1 :
  m w = (Done a, w1) → (m ≫= k) w = k a w1.
Proof. intros H. unfold mbind, IO_bind. by rewrite H. Qed.

Lemma IO_bind_Uncaught {A B} (m : IO A) (k : A → IO B) w e w1 :
  m w = (Uncaught e, w1) → (m ≫= k) w = (Uncaught e, w1).
Proof. intros H. unfold mbind, IO_bind. by rewrite H. Qed.

Lemma input_line (prompt line : string) (rest : list string) out self :
  input prompt {| stdin := line :: rest; stdout := out; my_book_recommender := self |}
  = (Done line, {| stdin := rest; stdout := (out ++ [Prompted prompt])%list;
                   my_book_recommender := self |}).
Proof. reflexivity. Qed.

Lemma call_Return {A} (m : M A) (a : A) self self' printed script out :
  m self = (Py.Return a, self', printed) →
  call m {| stdin := script; stdout := out; my_book_recommender := self |}
  = (Done a, {| stdin := script; stdout := (out ++ (Printed <$> printed))%list;
                my_book_recommender := self' |}).
Proof. intros H. unfold call. cbn. by rewrite H. Qed.

Lemma call_Raise {A} (m : M A) (e : Py.exn) self self' printed script out :
  m self = (Py.Raise e, self', printed) →
  call m {| stdin := script; stdout := out; my_book_recommender := self |}
  = (Uncaught e, {| stdin := script; stdout := (out ++ (Printed <$> printed))%list;
                    my_book_recommender := self' |}).
Proof. intros H. unfold call. cbn. by rewrite H. Qed.

Lemma search_call self input :
  (self' ← get_self; eval (search cosine_similarity introselect self' input)) self
  = (search cosine_similarity introselect self input, self, []).
Proof. reflexivity. Qed.

(** X19.  [main] catches nothing, so it needs ten books.  When the
    constructor has returned a catalogue of fewer than ten books, and the
    similarity vector has one entry for each, the program prints
    "initializing", asks for a title and ends with the [ValueError] of NumPy
    that [search] lets through, whatever else the script holds. *)
Theorem main_needs_ten_books (read_int64 : string → option Z)
    book_file map_file interactions title rest fuel :
  construct read_int64 book_file map_file interactions
  = Py.Return (init book_file map_file interactions) →
  length (similarity cosine_similarity (init book_file map_file interactions) title)
  = length (load_titles book_file) →
  (length (load_titles book_file) < 10)%nat →
  main cosine_similarity introselect book_file map_file interactions (title :: rest) (S fuel)
  = (Uncaught
       (Py.ValueError
          ("kth(=" +:+ pretty (-10 + Z.of_nat (length (load_titles book_file)))
           +:+ ") out of bounds (" +:+ pretty (Z.of_nat (length (load_titles book_file)))
           +:+ ")")),
     {| stdin := rest;
        stdout := [Printed "initializing"; Prompted "Enter the title of a book you like: "];
        my_book_recommender := init book_file map_file interactions |}).
Proof.
  intros Hbuilt Hlen Hfew. unfold main. cbn [rounds select_books].
  apply construct_not_empty in Hbuilt. cbn [titles init] in Hbuilt.
  assert (Hsome : (0 < length (load_titles book_file))%nat)
    by (destruct (load_titles book_file); [done | cbn; lia]).
  apply IO_bind_Uncaught.
  rewrite (IO_bind_Done _ _ _ _ _ (input_line _ _ _ _ _)).
  apply IO_bind_Uncaught.
  erewrite (call_Raise _ _ _ (init book_file map_file interactions) []); [reflexivity|].
  rewrite search_call. unfold search.
  rewrite (search_indices_too_few introselect) by (rewrite Hlen; lia).
  by rewrite Hlen.
Qed.

Lemma step_input {B} (prompt line : string) (rest : list string) out self (k : string → IO B) :
  (input prompt ≫= k) {| stdin := line :: rest; stdout := out; my_book_recommender := self |}
  = k line {| stdin := rest; stdout := (out ++ [Prompted prompt])%list;
              my_book_recommender := self |}.
Proof. reflexivity. Qed.

Lemma step_print_line {B} (line : string) script out self (k : unit → IO B) :
  (print_line line ≫= k) {| stdin := script; stdout := out; my_book_recommender := self |}
  = k () {| stdin := script; stdout := (out ++ [Printed line])%list;
            my_book_recommender := self |}.
Proof. reflexivity. Qed.

Lemma step_print_frame {B} rows script out self (k : unit → IO B) :
  (print_frame rows ≫= k) {| stdin := script; stdout := out; my_book_recommender := self |}
  = k () {| stdin := script; stdout := (out ++ [Frame rows])%list;
            my_book_recommender := self |}.
Proof. reflexivity. Qed.

Lemma step_call {A B} (m : M A) (a : A) self self' printed script out (k : A → IO B) :
  m self = (Py.Return a, self', printed) →
  (call m ≫= k) {| stdin := script; stdout := out; my_book_recommender := self |}
  = k a {| stdin := script; stdout := (out ++ (Printed <$> printed))%list;
           my_book_recommender := self' |}.
Proof. intros H. apply IO_bind_Done. by apply call_Return. Qed.

Lemma step_call_Raise {A B} (m : M A) (e : Py.exn) self self' printed script out
    (k : A → IO B) :
  m self = (Py.Raise e, self', printed) →
  (call m ≫= k) {| stdin := script; stdout := out; my_book_recommender := self |}
  = (Uncaught e, {| stdin := script; stdout := (out ++ (Printed <$> printed))%list;
                    my_book_recommender := self' |}).
Proof. intros H. apply IO_bind_Uncaught. by apply call_Raise. Qed.

(** One pass through the inner loop, left with an answer that lower-cases
    to "n". *)
Lemma select_books_once fuel title id no rest out self results self' printed :
  search cosine_similarity introselect self title = Py.Return results →
  add_liked_book id self = (Py.Return (), self', printed) →
  Py.lower no = "n" →
  select_books cosine_similarity introselect (S fuel)
    {| stdin := title :: id :: no :: rest; stdout := out; my_book_recommender := self |}
  = (Done (),
     {| stdin := rest;
        stdout :=
          ((((out ++ [Prompted "Enter the title of a book you like: "])
               ++ [Frame results])
              ++ [Prompted "Enter the book id of the book you like or enter 0 to continue without selecting a book: "])
             ++ (Printed <$> printed))
            ++ [Prompted "Would you like to search for another book? Enter 'Y' for yes or 'N' for no: "];
        my_book_recommender := self' |})%list.
Proof.
  intros Hsearch Hadd Hno. cbn [select_books].
  rewrite step_input.
  rewrite (step_call _ results self self []);
    [|by rewrite search_call, Hsearch].
  rewrite step_print_frame, step_input.
  rewrite (step_call _ () self self' printed _ _ _ Hadd).
  rewrite step_input. rewrite app_nil_r.
  by destruct (decide (Py.lower no = "n")).
Qed.


(** X21.  [main] catches nothing, and the book id typed is not checked
    against the map: when the constructor has returned, the first search
    returns, the first id typed is read by [int] as a positive number and has
    no entry in [book_data_to_interactions_map], and the search for more
    books is declined, the program ends with the [KeyError] of
    [find_similar_users] right after printing "searching for users". *)
Theorem main_unknown_id_crashes (read_int64 : string → option Z)
    book_file map_file interactions title id tmp no rest fuel results :
  construct read_int64 book_file map_file interactions
  = Py.Return (init book_file map_file interactions) →
  search cosine_similarity introselect (init book_file map_file interactions) title
  = Py.Return results →
  Py.int id = Some tmp → 0 < tmp →
  (load_maps map_file).2 !! id = None →
  Py.lower no = "n" →
  main cosine_similarity introselect book_file map_file interactions
       (title :: id :: no :: rest) (S fuel)
  = (Uncaught (Py.KeyError id),
     {| stdin := rest;
        stdout :=
          [Printed "initializing";
           Prompted "Enter the title of a book you like: ";
           Frame results;
           Prompted "Enter the book id of the book you like or enter 0 to continue without selecting a book: ";
           Prompted "Would you like to search for another book? Enter 'Y' for yes or 'N' for no: ";
           Printed "searching for users"];
        my_book_recommender :=
          set_liked_books [id] (init book_file map_file interactions) |}).
Proof.
  intros _ Hsearch Hint Hpos Hnone Hno. unfold main. cbn [rounds].
  set (self := init book_file map_file interactions).
  assert (Hadd : add_liked_book id self = (Py.Return (), set_liked_books [id] self, [])).
  { apply (add_liked_book_appends self id tmp); [|done..]. intros Hin. inversion Hin. }
  rewrite (IO_bind_Done _ _ _ _ _
             (select_books_once fuel title id no rest _ self results _ []
                Hsearch Hadd Hno)).
  rewrite step_print_line.
  rewrite (step_call_Raise find_similar_users (Py.KeyError id)
             (set_liked_books [id] self) (set_liked_books [id] self) []); [reflexivity|].
  apply (find_similar_users_first_missing _ [] id); [reflexivity | | exact Hnone].
  intros book Hin. inversion Hin.
Qed.

(** *** Every run ends *)

Lemma same_data_refl self : same_data self self.
Proof. by repeat split. Qed.

Lemma same_data_trans self1 self2 self3 :
  same_data self1 self2 → same_data self2 self3 → same_data self1 self3.
Proof.
  intros (A1 & A2 & A3 & A4) (B1 & B2 & B3 & B4).
  repeat split; congruence.
Qed.

Lemma kept_refl w : kept w w.
Proof. split; [done|]. split; [done|]. split; [apply same_data_refl | done]. Qed.

Lemma kept_trans w1 w2 w3 : kept w1 w2 → kept w2 w3 → kept w1 w3.
Proof.
  intros (A1 & A2 & A3 & A4) (B1 & B2 & B3 & B4).
  split; [by etrans|]. split; [by etrans|].
  split; [by eapply same_data_trans | auto].
Qed.

Lemma kept_length w w' : kept w w' → (length (stdin w') ≤ length (stdin w))%nat.
Proof. intros [H _]. by apply suffix_length. Qed.

Lemma kept_write e w : kept w (write e w).
Proof.
  split; [done|]. split; [by apply prefix_app_r|]. split; [apply same_data_refl | done].
Qed.

Lemma good_ret {A} (a : A) w : good false (mret a) w.
Proof. split; [apply kept_refl|]. split; [discriminate | discriminate]. Qed.

Lemma good_weaken {A} (m : IO A) w : good true m w → good false m w.
Proof. intros (K & F & _). split; [done|]. split; [done | discriminate]. Qed.

Lemma good_bind {A B} (s1 s2 : bool) (m : IO A) (k : A → IO B) w :
  good s1 m w →
  (∀ a w1, kept w w1 → (s1 = true → (length (stdin w1) < length (stdin w))%nat) →
           good s2 (k a) w1) →
  good (s1 || s2) (m ≫= k) w.
Proof.
  intros (K & F & S) Hk. unfold good, mbind, IO_bind.
  destruct (m w) as [[a|e| |] w1] eqn:Hm; cbn in *.
  - destruct (Hk a w1 K (λ Hs, S Hs a eq_refl)) as (K' & F' & S').
    split; [by eapply kept_trans|]. split; [done|].
    intros Hs b Hb. pose proof (kept_length _ _ K). pose proof (kept_length _ _ K').
    destruct s1; [specialize (S eq_refl a eq_refl); lia|].
    cbn in Hs. specialize (S' Hs b Hb). lia.
  - split; [done|]. split; [discriminate | discriminate].
  - split; [done|]. split; [discriminate | discriminate].
  - done.
Qed.

Lemma good_input (prompt : string) w : good true (input prompt) w.
Proof.
  unfold good, input. destruct (stdin w) as [|line rest] eqn:Hin; cbn.
  - split; [apply kept_write|]. split; [discriminate | discriminate].
  - split.
    + split; [cbn; rewrite Hin; by apply suffix_cons_r|].
      split; [by apply prefix_app_r|]. split; [apply same_data_refl | done].
    + split; [discriminate|]. intros _ a _. lia.
Qed.

Lemma good_print_line (line : string) w : good false (print_line line) w.
Proof. split; [apply kept_write|]. split; [discriminate | discriminate]. Qed.

Lemma good_print_frame rows w : good false (print_frame rows) w.
Proof. split; [apply kept_write|]. split; [discriminate | discriminate]. Qed.

Lemma good_call {A} (m : M A) w : keeps_data m → good false (call m) w.
Proof.
  intros Hm. destruct (Hm (my_book_recommender w)) as [Hdata Hwf].
  unfold good, call. destruct (m (my_book_recommender w)) as [[r self] out]; cbn in *.
  split.
  - split; [done|]. split; [by apply prefix_app_r|]. done.
  - split; [by destruct r | discriminate].
Qed.

Lemma keeps_data_search input :
  keeps_data (self ← get_self; eval (search cosine_similarity introselect self input)).
Proof. intros self. split; [apply same_data_refl | done]. Qed.

Lemma keeps_data_add_liked_book input : keeps_data (add_liked_book input).
Proof.
  intros self. split; [|apply add_liked_book_well_formed].
  destruct (add_liked_book_state self input) as [->|(_ & _ & ->)]; by repeat split.
Qed.

Lemma keeps_data_find_similar_users : keeps_data find_similar_users.
Proof.
  intros self. destruct (find_similar_users_state self) as (s & -> & _).
  split; [by repeat split | done].
Qed.

Lemma keeps_data_find_recs : keeps_data find_recs.
Proof.
  intros self. rewrite find_recs_state. split; [apply same_data_refl | done].
Qed.

Lemma keeps_data_reset_recs : keeps_data reset_recs.
Proof.
  intros self. split; [by repeat split|]. intros _. cbn.
  split; [constructor | intros x Hx; inversion Hx].
Qed.

Lemma select_books_good fuel w :
  (length (stdin w) < fuel)%nat →
  good true (select_books cosine_similarity introselect fuel) w.
Proof.
  revert w. induction fuel as [|fuel IH]; intros w Hlt; [lia|].
  cbn [select_books].
  apply (good_bind true false); [apply good_input|]. intros val w1 K1 S1.
  apply (good_bind false false); [apply good_call, keeps_data_search|]. intros results w2 K2 _.
  apply (good_bind false false); [apply good_print_frame|]. intros _ w3 K3 _.
  apply (good_bind false false); [apply good_weaken, good_input|]. intros id w4 K4 _.
  apply (good_bind false false); [apply good_call, keeps_data_add_liked_book|].
  intros _ w5 K5 _.
  apply (good_bind false false); [apply good_weaken, good_input|]. intros no w6 K6 _.
  destruct (decide (Py.lower no = "n")); [apply good_ret|].
  apply good_weaken, IH. specialize (S1 eq_refl).
  pose proof (kept_length _ _ K2). pose proof (kept_length _ _ K3).
  pose proof (kept_length _ _ K4). pose proof (kept_length _ _ K5).
  pose proof (kept_length _ _ K6). lia.
Qed.

Lemma add_recommended_good fuel w :
  (length (stdin w) < fuel)%nat →
  good true (add_recommended fuel) w.
Proof.
  revert w. induction fuel as [|fuel IH]; intros w Hlt; [lia|].
  cbn [add_recommended].
  apply (good_bind true false); [apply good_input|]. intros val w1 K1 S1.
  destruct (decide (val = "0")); [apply good_ret|].
  apply (good_bind false false); [apply good_call, keeps_data_add_liked_book|].
  intros _ w2 K2 _.
  apply good_weaken, IH. specialize (S1 eq_refl).
  pose proof (kept_length _ _ K2). lia.
Qed.

Lemma rounds_good fuel w :
  (length (stdin w) < fuel)%nat →
  good true (rounds cosine_similarity introselect fuel) w.
Proof.
  revert w. induction fuel as [|fuel IH]; intros w Hlt; [lia|].
  cbn [rounds].
  apply (good_bind true false); [by apply select_books_good|]. intros _ w1 K1 S1.
  apply (good_bind false false); [apply good_print_line|]. intros _ w2 K2 _.
  apply (good_bind false false); [apply good_call, keeps_data_find_similar_users|].
  intros _ w3 K3 _.
  apply (good_bind false false); [apply good_print_line|]. intros _ w4 K4 _.
  apply (good_bind false false); [apply good_call, keeps_data_find_recs|].
  intros recs w5 K5 _.
  apply (good_bind false false); [apply good_print_frame|]. intros _ w6 K6 _.
  apply (good_bind false false); [apply good_weaken, good_input|]. intros more w7 K7 _.
  destruct (decide (Py.lower more = "n")); [apply good_ret|].
  apply (good_bind false false); [apply good_weaken, good_input|]. intros clear w8 K8 _.
  specialize (S1 eq_refl).
  pose proof (kept_length _ _ K2). pose proof (kept_length _ _ K3).
  pose proof (kept_length _ _ K4). pose proof (kept_length _ _ K5).
  pose proof (kept_length _ _ K6). pose proof (kept_length _ _ K7).
  pose proof (kept_length _ _ K8).
  apply (good_bind false false).
  - destruct (decide (Py.lower clear = "y"));
      [apply good_call, keeps_data_reset_recs | apply good_weaken, add_recommended_good; lia].
  - intros _ w9 K9 _. pose proof (kept_length _ _ K9). apply good_weaken, IH. lia.
Qed.

(** More fuel than needed changes nothing. *)
Lemma bind_cong {A B} (s : bool) (m : IO A) (k1 k2 : A → IO B) w :
  good s m w →
  (∀ a w1, kept w w1 → (s = true → (length (stdin w1) < length (stdin w))%nat) →
           k1 a w1 = k2 a w1) →
  (m ≫= k1) w = (m ≫= k2) w.
Proof.
  intros (K & _ & S) Hk. unfold mbind, IO_bind.
  destruct (m w) as [[a|e| |] w1] eqn:Hm; cbn in *; try done.
  apply Hk; [done|]. intros Hs. by apply (S Hs a).
Qed.

Lemma bind_cong2 {A B} (s : bool) (m1 m2 : IO A) (k1 k2 : A → IO B) w :
  m1 w = m2 w → good s m1 w →
  (∀ a w1, kept w w1 → (s = true → (length (stdin w1) < length (stdin w))%nat) →
           k1 a w1 = k2 a w1) →
  (m1 ≫= k1) w = (m2 ≫= k2) w.
Proof.
  intros Hm Hgood Hk. rewrite (bind_cong s m1 k1 k2 w Hgood Hk).
  unfold mbind, IO_bind. by rewrite Hm.
Qed.

Lemma select_books_fuel fuel1 fuel2 w :
  (length (stdin w) < fuel1)%nat → (length (stdin w) < fuel2)%nat →
  select_books cosine_similarity introselect fuel1 w
  = select_books cosine_similarity introselect fuel2 w.
Proof.
  revert fuel2 w. induction fuel1 as [|fuel1 IH]; intros [|fuel2] w H1 H2; try lia.
  cbn [select_books].
  apply (bind_cong true); [apply good_input|]. intros val w1 K1 S1.
  apply (bind_cong false); [apply good_call, keeps_data_search|]. intros results w2 K2 _.
  apply (bind_cong false); [apply good_print_frame|]. intros _ w3 K3 _.
  apply (bind_cong false); [apply good_weaken, good_input|]. intros id w4 K4 _.
  apply (bind_cong false); [apply good_call, keeps_data_add_liked_book|].
  intros _ w5 K5 _.
  apply (bind_cong false); [apply good_weaken, good_input|]. intros no w6 K6 _.
  destruct (decide (Py.lower no = "n")); [done|].
  specialize (S1 eq_refl).
  pose proof (kept_length _ _ K2). pose proof (kept_length _ _ K3).
  pose proof (kept_length _ _ K4). pose proof (kept_length _ _ K5).
  pose proof (kept_length _ _ K6). apply IH; lia.
Qed.

Lemma add_recommended_fuel fuel1 fuel2 w :
  (length (stdin w) < fuel1)%nat → (length (stdin w) < fuel2)%nat →
  add_recommended fuel1 w = add_recommended fuel2 w.
Proof.
  revert fuel2 w. induction fuel1 as [|fuel1 IH]; intros [|fuel2] w H1 H2; try lia.
  cbn [add_recommended].
  apply (bind_cong true); [apply good_input|]. intros val w1 K1 S1.
  destruct (decide (val = "0")); [done|].
  apply (bind_cong false); [apply good_call, keeps_data_add_liked_book|].
  intros _ w2 K2 _. specialize (S1 eq_refl).
  pose proof (kept_length _ _ K2). apply IH; lia.
Qed.

Lemma rounds_fuel fuel1 fuel2 w :
  (length (stdin w) < fuel1)%nat → (length (stdin w) < fuel2)%nat →
  rounds cosine_similarity introselect fuel1 w
  = rounds cosine_similarity introselect fuel2 w.
Proof.
  revert fuel2 w. induction fuel1 as [|fuel1 IH]; intros [|fuel2] w H1 H2; try lia.
  cbn [rounds].
  apply (bind_cong2 true);
    [by apply select_books_fuel | by apply select_books_good |].
  intros _ w1 K1 S1. specialize (S1 eq_refl).
  apply (bind_cong false); [apply good_print_line|]. intros _ w2 K2 _.
  apply (bind_cong false); [apply good_call, keeps_data_find_similar_users|].
  intros _ w3 K3 _.
  apply (bind_cong false); [apply good_print_line|]. intros _ w4 K4 _.
  apply (bind_cong false); [apply good_call, keeps_data_find_recs|].
  intros recs w5 K5 _.
  apply (bind_cong false); [apply good_print_frame|]. intros _ w6 K6 _.
  apply (bind_cong false); [apply good_weaken, good_input|]. intros more w7 K7 _.
  destruct (decide (Py.lower more = "n")); [done|].
  apply (bind_cong false); [apply good_weaken, good_input|]. intros clear w8 K8 _.
  pose proof (kept_length _ _ K2). pose proof (kept_length _ _ K3).
  pose proof (kept_length _ _ K4). pose proof (kept_length _ _ K5).
  pose proof (kept_length _ _ K6). pose proof (kept_length _ _ K7).
  pose proof (kept_length _ _ K8).
  destruct (decide (Py.lower clear = "y")).
  - apply (bind_cong false); [apply good_call, keeps_data_reset_recs|].
    intros _ w9 K9 _. pose proof (kept_length _ _ K9). apply IH; lia.
  - apply (bind_cong2 false);
      [apply add_recommended_fuel; lia | apply good_weaken, add_recommended_good; lia |].
    intros _ w9 K9 _. pose proof (kept_length _ _ K9). apply IH; lia.
Qed.

(** X22.  [main] ends on every script.  With more rounds allowed than the
    script has lines, no run of the model stops for lack of fuel: it ends
    normally, with an uncaught exception of a method, or with the [EOFError]
    of [input], and any other such bound gives the same run.  At that point the lines not read are an end piece of the
    script, the output starts with "initializing", the catalogue, the
    interactions and both maps are those built from the files, and the list of
    liked books holds no text twice and only texts that [int] reads as
    positive numbers. *)
Theorem main_ends book_file map_file interactions script fuel :
  (length script < fuel)%nat →
  (main cosine_similarity introselect book_file map_file interactions script fuel).1
    ≠ OutOfFuel
  ∧ (∀ fuel', (length script < fuel')%nat →
       main cosine_similarity introselect book_file map_file interactions script fuel'
       = main cosine_similarity introselect book_file map_file interactions script fuel)
  ∧ stdin (main cosine_similarity introselect book_file map_file interactions script fuel).2
      `suffix_of` script
  ∧ [Printed "initializing"]
      `prefix_of`
      stdout (main cosine_similarity introselect book_file map_file interactions script fuel).2
  ∧ same_data (init book_file map_file interactions)
      (my_book_recommender
         (main cosine_similarity introselect book_file map_file interactions script fuel).2)
  ∧ ids_well_formed
      (liked_books
         (my_book_recommender
            (main cosine_similarity introselect book_file map_file interactions
               script fuel).2)).
Proof.
  intros Hfuel. unfold main.
  set (w := {| stdin := script; stdout := [Printed "initializing"];
               my_book_recommender := init book_file map_file interactions |}).
  destruct (rounds_good fuel w Hfuel) as ((K1 & K2 & K3 & K4) & F & _).
  split; [exact F|]. split; [intros fuel' Hfuel'; by apply rounds_fuel|].
  split; [exact K1|]. split; [exact K2|]. split; [exact K3|].
  apply K4. cbn. split; [constructor | intros x Hx; inversion Hx].
Qed.

End MainRuns.

Lemma main_needs_ten_books_witness :
  construct parse_int64 sample_books [] [] = Py.Return (init sample_books [] [])
  ∧ length (similarity (table_similarity []) (init sample_books [] []) "Book A")
    = length (load_titles sample_books)
  ∧ (length (load_titles sample_books) < 10)%nat
  ∧ (main (table_similarity []) select_by_sort sample_books [] [] ["Book A"; "1"] 1).1
    = Uncaught (Py.ValueError "kth(=-7) out of bounds (3)").
Proof.
  assert (H1 : construct parse_int64 sample_books [] []
               = Py.Return (init sample_books [] [])) by (vm_compute; reflexivity).
  assert (H2 : length (similarity (table_similarity []) (init sample_books [] []) "Book A")
               = length (load_titles sample_books)) by (vm_compute; reflexivity).
  assert (H3 : (length (load_titles sample_books) < 10)%nat) by (vm_compute; lia).
  split; [exact H1|]. split; [exact H2|]. split; [exact H3|].
  by rewrite (main_needs_ten_books (table_similarity []) select_by_sort parse_int64
                sample_books [] [] "Book A" ["1"] 0 H1 H2 H3).
Defined.


Lemma main_unknown_id_crashes_witness :
  ∃ results,
    construct parse_int64 shelf_books [] [] = Py.Return (init shelf_books [] [])
    ∧ search (table_similarity []) select_by_sort (init shelf_books [] []) "harry"
      = Py.Return results
    ∧ Py.int "5" = Some 5 ∧ 0 < 5
    ∧ (load_maps []).2 !! "5" = None
    ∧ Py.lower "N" = "n"
    ∧ (main (table_similarity []) select_by_sort shelf_books [] []
         ["harry"; "5"; "N"] 1).1 = Uncaught (Py.KeyError "5").
Proof.
  assert (Hbuilt : construct parse_int64 shelf_books [] []
                   = Py.Return (init shelf_books [] [])) by (vm_compute; reflexivity).
  eexists. split; [exact Hbuilt|]. split; [vm_compute; reflexivity|].
  split; [reflexivity|]. split; [lia|]. split; [reflexivity|]. split; [reflexivity|].
  assert (Hpos : 0 < 5) by lia.
  by rewrite (main_unknown_id_crashes (table_similarity []) select_by_sort parse_int64
                shelf_books [] [] "harry" "5" 5 "N" [] 0 _ Hbuilt eq_refl eq_refl Hpos
                eq_refl eq_refl).
Defined.

Lemma main_ends_witness :
  (length ["harry"; "5"; "y"] < 4)%nat
  ∧ (main (table_similarity []) select_by_sort shelf_books [] []
       ["harry"; "5"; "y"] 4).1 ≠ OutOfFuel.
Proof.
  assert (H : (length ["harry"; "5"; "y"] < 4)%nat) by (cbn; lia).
  split; [exact H|].
  exact (proj1 (main_ends (table_similarity []) select_by_sort
                  shelf_books [] [] ["harry"; "5"; "y"] 4 H)).
Defined.

(** The run of the last script: after the third answer the script is at its
    end and the next [input] raises. *)
Example main_end_of_script :
  (main (table_similarity []) select_by_sort shelf_books [] [] ["harry"; "5"; "y"] 4).1
  = EOFError.
Proof. vm_compute. reflexivity. Qed.
